(** * STM32F4 GPIO register programming (soc_gpio.c)

    A shallow embedding of [arch/arm/soc/st_stm32/stm32f4/soc_gpio.c]:
    the four classifier functions, the flags translator, the register
    programmer, the pin set/get primitives and the EXTI line router.

    C [int] and [u32_t] values are integers of [Z]; conversions between
    the two are written out ([u32], [s32]).  Memory-mapped registers are
    cells of a machine state, and every access to one is recorded in the
    trace a call returns.  A call whose C behaviour is undefined (a shift
    count outside 0..31, an index outside [afr[2]], an [int]
    multiplication that overflows) yields [None]. *)

From Stdlib Require Import ZArith Lia Bool List.
From stdpp Require Import base option list gmap strings.

Local Open Scope Z_scope.

(** ** Constants of the headers the driver includes

    [errno.h], [gpio.h], [soc.h], [soc_registers.h] and the clock-control
    headers are not part of the sources; the constants and the device
    lookup the driver takes from them are the fields of this class. *)
Class soc_headers := {
  EINVAL : Z;
  GPIO_DIR_MASK : Z;
  GPIO_DIR_OUT : Z;
  GPIO_PUD_MASK : Z;
  GPIO_PUD_PULL_UP : Z;
  GPIO_PUD_PULL_DOWN : Z;
  STM32F4X_PIN_CONFIG_BIAS_HIGH_IMPEDANCE : Z;
  STM32F4X_PIN_CONFIG_BIAS_PULL_UP : Z;
  STM32F4X_PIN_CONFIG_BIAS_PULL_DOWN : Z;
  STM32F4X_PIN_CONFIG_ANALOG : Z;
  STM32F4X_PIN_CONFIG_DRIVE_OPEN_DRAIN : Z;
  STM32F4X_PIN_CONFIG_DRIVE_OPEN_UP : Z;
  STM32F4X_PIN_CONFIG_DRIVE_OPEN_DOWN : Z;
  STM32F4X_PIN_CONFIG_DRIVE_PUSH_PULL : Z;
  STM32F4X_PIN_CONFIG_DRIVE_PUSH_UP : Z;
  STM32F4X_PIN_CONFIG_DRIVE_PUSH_DOWN : Z;
  STM32F4X_PIN_CONFIG_AF_PUSH_PULL : Z;
  STM32F4X_PIN_CONFIG_AF_PUSH_UP : Z;
  STM32F4X_PIN_CONFIG_AF_PUSH_DOWN : Z;
  STM32F4X_PIN_CONFIG_AF_OPEN_DRAIN : Z;
  STM32F4X_PIN_CONFIG_AF_OPEN_UP : Z;
  STM32F4X_PIN_CONFIG_AF_OPEN_DOWN : Z;
  STM32_CLOCK_CONTROL_NAME : string;
  STM32_CLOCK_BUS_APB2 : Z;
  LL_APB2_GRP1_PERIPH_SYSCFG : Z;
  device_get_binding : string -> Z
}.

(** ** Machine integers *)

(** Conversion to [u32_t]. *)
Definition u32 (x : Z) : Z := x mod 2 ^ 32.

(** Conversion to [int] (two's complement, 32 bits). *)
Definition s32 (x : Z) : Z := (x + 2 ^ 31) mod 2 ^ 32 - 2 ^ 31.

Definition INT_MIN : Z := - 2 ^ 31.
Definition INT_MAX : Z := 2 ^ 31 - 1.

Definition in_int (x : Z) : bool := (INT_MIN <=? x) && (x <=? INT_MAX).

(** A shift count the C standard defines for a 32-bit operand. *)
Definition shift_ok (n : Z) : bool := (0 <=? n) && (n <? 32).

(** ** Registers *)

(** Modelled from the spec: the GPIO register block [struct stm32f4x_gpio]
    of [soc_registers.h], with the fields the driver names: mode, output
    type, speed, pull, input data, atomic set/reset, and the two
    alternate-function words. *)
Record stm32f4x_gpio := {
  mode : Z;
  otype : Z;
  ospeed : Z;
  pupdr : Z;
  idr : Z;
  bsr : Z;
  afr : list Z
}.

(** Modelled from the spec: the four interrupt selector registers of
    [struct stm32f4x_syscfg]; each is read and written through its [val]
    member. *)
Record stm32f4x_syscfg := {
  exticr1 : Z;
  exticr2 : Z;
  exticr3 : Z;
  exticr4 : Z
}.

(** The state a call can observe or change: the GPIO block [base] points
    to, the SYSCFG block, and the [int] cells of ordinary memory by
    address (address 0 is the null pointer). *)
Record machine := {
  gpio : stm32f4x_gpio;
  syscfg : stm32f4x_syscfg;
  mem : gmap Z Z
}.

Inductive reg :=
  | MODE | OTYPE | OSPEED | PUPDR | IDR | BSR
  | AFR (i : Z)
  | EXTICR1 | EXTICR2 | EXTICR3 | EXTICR4.

Inductive event :=
  | EvRead (r : reg) (v : Z)
  | EvWrite (r : reg) (v : Z)
  | EvClockOn (clk bus enr : Z).

Definition afr_index (i : Z) (l : list Z) : option nat :=
  if (0 <=? i) && (i <? Z.of_nat (length l)) then Some (Z.to_nat i) else None.

Definition load (r : reg) (m : machine) : option Z :=
  match r with
  | MODE => Some (mode (gpio m))
  | OTYPE => Some (otype (gpio m))
  | OSPEED => Some (ospeed (gpio m))
  | PUPDR => Some (pupdr (gpio m))
  | IDR => Some (idr (gpio m))
  | BSR => Some (bsr (gpio m))
  | AFR i =>
      match afr_index i (afr (gpio m)) with
      | Some n => afr (gpio m) !! n
      | None => None
      end
  | EXTICR1 => Some (exticr1 (syscfg m))
  | EXTICR2 => Some (exticr2 (syscfg m))
  | EXTICR3 => Some (exticr3 (syscfg m))
  | EXTICR4 => Some (exticr4 (syscfg m))
  end.

Definition set_gpio (m : machine) (g : stm32f4x_gpio) : machine :=
  {| gpio := g; syscfg := syscfg m; mem := mem m |}.

Definition set_syscfg (m : machine) (s : stm32f4x_syscfg) : machine :=
  {| gpio := gpio m; syscfg := s; mem := mem m |}.

Definition set_mem (m : machine) (h : gmap Z Z) : machine :=
  {| gpio := gpio m; syscfg := syscfg m; mem := h |}.

Definition store_gpio (r : reg) (v : Z) (g : stm32f4x_gpio) : option stm32f4x_gpio :=
  match r with
  | MODE => Some {| mode := v; otype := otype g; ospeed := ospeed g; pupdr := pupdr g;
                    idr := idr g; bsr := bsr g; afr := afr g |}
  | OTYPE => Some {| mode := mode g; otype := v; ospeed := ospeed g; pupdr := pupdr g;
                     idr := idr g; bsr := bsr g; afr := afr g |}
  | OSPEED => Some {| mode := mode g; otype := otype g; ospeed := v; pupdr := pupdr g;
                      idr := idr g; bsr := bsr g; afr := afr g |}
  | PUPDR => Some {| mode := mode g; otype := otype g; ospeed := ospeed g; pupdr := v;
                     idr := idr g; bsr := bsr g; afr := afr g |}
  | IDR => Some {| mode := mode g; otype := otype g; ospeed := ospeed g; pupdr := pupdr g;
                   idr := v; bsr := bsr g; afr := afr g |}
  | BSR => Some {| mode := mode g; otype := otype g; ospeed := ospeed g; pupdr := pupdr g;
                   idr := idr g; bsr := v; afr := afr g |}
  | AFR i =>
      match afr_index i (afr g) with
      | Some n => Some {| mode := mode g; otype := otype g; ospeed := ospeed g;
                          pupdr := pupdr g; idr := idr g; bsr := bsr g;
                          afr := <[n := v]> (afr g) |}
      | None => None
      end
  | _ => None
  end.

Definition store_syscfg (r : reg) (v : Z) (s : stm32f4x_syscfg) : option stm32f4x_syscfg :=
  match r with
  | EXTICR1 => Some {| exticr1 := v; exticr2 := exticr2 s; exticr3 := exticr3 s; exticr4 := exticr4 s |}
  | EXTICR2 => Some {| exticr1 := exticr1 s; exticr2 := v; exticr3 := exticr3 s; exticr4 := exticr4 s |}
  | EXTICR3 => Some {| exticr1 := exticr1 s; exticr2 := exticr2 s; exticr3 := v; exticr4 := exticr4 s |}
  | EXTICR4 => Some {| exticr1 := exticr1 s; exticr2 := exticr2 s; exticr3 := exticr3 s; exticr4 := v |}
  | _ => None
  end.

Definition store (r : reg) (v : Z) (m : machine) : option machine :=
  match r with
  | EXTICR1 | EXTICR2 | EXTICR3 | EXTICR4 =>
      match store_syscfg r v (syscfg m) with
      | Some s => Some (set_syscfg m s)
      | None => None
      end
  | _ =>
      match store_gpio r v (gpio m) with
      | Some g => Some (set_gpio m g)
      | None => None
      end
  end.

(** ** The monad of a C call: state, trace of accesses, undefined behaviour *)

Definition M (A : Type) : Type := machine -> option (A * machine * list event).

Definition ret {A} (a : A) : M A := fun m => Some (a, m, []).

Definition undefined {A} : M A := fun _ => None.

Definition emit {A} (t : list event) (r : option (A * machine * list event))
  : option (A * machine * list event) :=
  match r with
  | Some (a, m, t') => Some (a, m, t ++ t')
  | None => None
  end.

Definition bind {A B} (c : M A) (k : A -> M B) : M B :=
  fun m =>
    match c m with
    | Some (a, m', t) => emit t (k a m')
    | None => None
    end.

Notation "'do' x <- c ; k" := (bind c (fun x => k))
  (at level 10, x name, c at level 99, k at level 200).
Notation "c ;; k" := (bind c (fun _ => k))
  (at level 100, k at level 200, right associativity).

(** A volatile read of a register. *)
Definition read (r : reg) : M Z :=
  fun m =>
    match load r m with
    | Some v => Some (v, m, [EvRead r v])
    | None => None
    end.

(** A write to a register. *)
Definition write (r : reg) (v : Z) : M unit :=
  fun m =>
    match store r v m with
    | Some m' => Some (tt, m', [EvWrite r v])
    | None => None
    end.

(** [*p = v] for an [int *p]. *)
Definition store_int (p v : Z) : M unit :=
  fun m => Some (tt, set_mem m (<[p := v]> (mem m)), []).

(** [a * b] on [int]: overflow is undefined. *)
Definition mul_int (a b : Z) : M Z :=
  if in_int (a * b) then ret (a * b) else undefined.

(** [a << n] on [int]: a count outside 0..31 is undefined; the result is
    the two's complement one, as the compilers of this code define it. *)
Definition shl_int (a n : Z) : M Z :=
  if shift_ok n then ret (s32 (Z.shiftl a n)) else undefined.

(** [a << n] on [u32_t]. *)
Definition shl_u32 (a n : Z) : M Z :=
  if shift_ok n then ret (u32 (Z.shiftl a n)) else undefined.

(** [a >> n] on [u32_t]. *)
Definition shr_u32 (a n : Z) : M Z :=
  if shift_ok n then ret (Z.shiftr a n) else undefined.

(** [clock_control_on(clk, &pclken)]: a call into the clock-control
    driver, recorded with its arguments. *)
Definition clock_control_on (clk bus enr : Z) : M unit :=
  fun m => Some (tt, m, [EvClockOn clk bus enr]).

(** A C condition [if (v)]. *)
Definition truthy (v : Z) : bool := negb (v =? 0).

(** [case l1: case l2: ...] of a [switch (func)]. *)
Definition case_of (func : Z) (labels : list Z) : bool :=
  existsb (Z.eqb func) labels.

Section Driver.

Context {Hdr : soc_headers}.

(** ** Function classifier *)

Definition __func_to_mode (func : Z) : Z :=
  if case_of func [STM32F4X_PIN_CONFIG_BIAS_HIGH_IMPEDANCE;
                   STM32F4X_PIN_CONFIG_BIAS_PULL_UP;
                   STM32F4X_PIN_CONFIG_BIAS_PULL_DOWN] then 0x0
  else if case_of func [STM32F4X_PIN_CONFIG_DRIVE_PUSH_PULL;
                        STM32F4X_PIN_CONFIG_DRIVE_PUSH_UP;
                        STM32F4X_PIN_CONFIG_DRIVE_PUSH_DOWN;
                        STM32F4X_PIN_CONFIG_DRIVE_OPEN_DRAIN;
                        STM32F4X_PIN_CONFIG_DRIVE_OPEN_UP;
                        STM32F4X_PIN_CONFIG_DRIVE_OPEN_DOWN] then 0x1
  else if case_of func [STM32F4X_PIN_CONFIG_AF_PUSH_PULL;
                        STM32F4X_PIN_CONFIG_AF_PUSH_UP;
                        STM32F4X_PIN_CONFIG_AF_PUSH_DOWN;
                        STM32F4X_PIN_CONFIG_AF_OPEN_DRAIN;
                        STM32F4X_PIN_CONFIG_AF_OPEN_UP;
                        STM32F4X_PIN_CONFIG_AF_OPEN_DOWN] then 0x2
  else if case_of func [STM32F4X_PIN_CONFIG_ANALOG] then 0x3
  else 0.

Definition __func_to_otype (func : Z) : Z :=
  if case_of func [STM32F4X_PIN_CONFIG_DRIVE_OPEN_DRAIN;
                   STM32F4X_PIN_CONFIG_DRIVE_OPEN_UP;
                   STM32F4X_PIN_CONFIG_DRIVE_OPEN_DOWN;
                   STM32F4X_PIN_CONFIG_AF_OPEN_DRAIN;
                   STM32F4X_PIN_CONFIG_AF_OPEN_UP;
                   STM32F4X_PIN_CONFIG_AF_OPEN_DOWN] then 0x1
  else 0.

Definition __func_to_ospeed (func : Z) : Z :=
  if case_of func [STM32F4X_PIN_CONFIG_DRIVE_PUSH_PULL;
                   STM32F4X_PIN_CONFIG_DRIVE_PUSH_UP;
                   STM32F4X_PIN_CONFIG_DRIVE_PUSH_DOWN;
                   STM32F4X_PIN_CONFIG_DRIVE_OPEN_DRAIN;
                   STM32F4X_PIN_CONFIG_DRIVE_OPEN_UP;
                   STM32F4X_PIN_CONFIG_DRIVE_OPEN_DOWN;
                   STM32F4X_PIN_CONFIG_AF_PUSH_PULL;
                   STM32F4X_PIN_CONFIG_AF_PUSH_UP;
                   STM32F4X_PIN_CONFIG_AF_PUSH_DOWN;
                   STM32F4X_PIN_CONFIG_AF_OPEN_DRAIN;
                   STM32F4X_PIN_CONFIG_AF_OPEN_UP;
                   STM32F4X_PIN_CONFIG_AF_OPEN_DOWN] then 0x2
  else 0.

Definition __func_to_pupd (func : Z) : Z :=
  if case_of func [STM32F4X_PIN_CONFIG_DRIVE_PUSH_PULL;
                   STM32F4X_PIN_CONFIG_DRIVE_OPEN_DRAIN;
                   STM32F4X_PIN_CONFIG_AF_PUSH_PULL;
                   STM32F4X_PIN_CONFIG_AF_OPEN_DRAIN;
                   STM32F4X_PIN_CONFIG_BIAS_HIGH_IMPEDANCE;
                   STM32F4X_PIN_CONFIG_ANALOG] then 0x0
  else if case_of func [STM32F4X_PIN_CONFIG_DRIVE_PUSH_UP;
                        STM32F4X_PIN_CONFIG_DRIVE_OPEN_UP;
                        STM32F4X_PIN_CONFIG_AF_PUSH_UP;
                        STM32F4X_PIN_CONFIG_AF_OPEN_UP;
                        STM32F4X_PIN_CONFIG_BIAS_PULL_UP] then 0x1
  else if case_of func [STM32F4X_PIN_CONFIG_DRIVE_PUSH_DOWN;
                        STM32F4X_PIN_CONFIG_DRIVE_OPEN_DOWN;
                        STM32F4X_PIN_CONFIG_AF_PUSH_DOWN;
                        STM32F4X_PIN_CONFIG_AF_OPEN_DOWN;
                        STM32F4X_PIN_CONFIG_BIAS_PULL_DOWN] then 0x2
  else 0.

(** ** Flags translator *)

Definition stm32_gpio_flags_to_conf (flags pincfg : Z) : M Z :=
  let direction := Z.land flags GPIO_DIR_MASK in
  let pud := Z.land flags GPIO_PUD_MASK in
  if negb (truthy pincfg) then ret (- EINVAL)
  else
    (if direction =? GPIO_DIR_OUT then
       if pud =? GPIO_PUD_PULL_UP then
         store_int pincfg STM32F4X_PIN_CONFIG_DRIVE_PUSH_UP
       else if pud =? GPIO_PUD_PULL_DOWN then
         store_int pincfg STM32F4X_PIN_CONFIG_DRIVE_PUSH_DOWN
       else
         store_int pincfg STM32F4X_PIN_CONFIG_DRIVE_PUSH_PULL
     else
       if pud =? GPIO_PUD_PULL_UP then
         store_int pincfg STM32F4X_PIN_CONFIG_BIAS_PULL_UP
       else if pud =? GPIO_PUD_PULL_DOWN then
         store_int pincfg STM32F4X_PIN_CONFIG_BIAS_PULL_DOWN
       else
         store_int pincfg STM32F4X_PIN_CONFIG_BIAS_HIGH_IMPEDANCE) ;;
    ret 0.

(** ** Register programmer *)

Definition stm32_gpio_configure (pin conf altf : Z) : M Z :=
  let mode := __func_to_mode conf in
  let otype := __func_to_otype conf in
  let ospeed := __func_to_ospeed conf in
  let pupd := __func_to_pupd conf in
  (* TODO: validate if indeed alternate *)
  (if truthy altf then
     (* Set the alternate function *)
     do tmpreg <- read (AFR (Z.shiftr pin 0x3));
     do msk <- shl_int 0xf (Z.land pin 0x07 * 4);
     let tmpreg := Z.land tmpreg (u32 (Z.lnot msk)) in
     do val <- shl_int altf (Z.land pin 0x07 * 4);
     let tmpreg := Z.lor tmpreg (u32 val) in
     write (AFR (Z.shiftr pin 0x3)) tmpreg
   else ret tt) ;;
  (* Set the IO direction mode *)
  do tmpreg <- read MODE;
  do sh <- mul_int pin 2;
  do msk <- shl_int 0x3 sh;
  let tmpreg := Z.land tmpreg (u32 (Z.lnot msk)) in
  do sh <- mul_int pin 2;
  do val <- shl_u32 mode sh;
  let tmpreg := Z.lor tmpreg val in
  write MODE tmpreg ;;
  (if truthy otype then
     do tmpreg <- read OTYPE;
     do msk <- shl_int 0x1 pin;
     let tmpreg := Z.land tmpreg (u32 (Z.lnot msk)) in
     do val <- shl_u32 otype pin;
     let tmpreg := Z.lor tmpreg val in
     write OTYPE tmpreg
   else ret tt) ;;
  (if truthy ospeed then
     do tmpreg <- read OSPEED;
     do sh <- mul_int pin 2;
     do msk <- shl_int 0x3 sh;
     let tmpreg := Z.land tmpreg (u32 (Z.lnot msk)) in
     do sh <- mul_int pin 2;
     do val <- shl_u32 ospeed sh;
     let tmpreg := Z.lor tmpreg val in
     write OSPEED tmpreg
   else ret tt) ;;
  do tmpreg <- read PUPDR;
  do sh <- mul_int pin 2;
  do msk <- shl_int 0x3 sh;
  let tmpreg := Z.land tmpreg (u32 (Z.lnot msk)) in
  do sh <- mul_int pin 2;
  do val <- shl_u32 pupd sh;
  let tmpreg := Z.lor tmpreg val in
  write PUPDR tmpreg ;;
  ret 0.

(** ** Pin I/O *)

Definition stm32_gpio_set (pin value : Z) : M Z :=
  (if truthy value then
     (* atomic set *)
     do v <- shl_int 1 (Z.land pin 0x0f);
     write BSR (u32 v)
   else
     (* atomic reset *)
     do v <- shl_int 1 (Z.land pin 0x0f + 0x10);
     write BSR (u32 v)) ;;
  ret 0.

Definition stm32_gpio_get (pin : Z) : M Z :=
  do v <- read IDR;
  do s <- shr_u32 v pin;
  ret (s32 (Z.land s 0x1)).

(** ** Interrupt router *)

Definition stm32_gpio_enable_int (port pin : Z) : M Z :=
  let clk := device_get_binding STM32_CLOCK_CONTROL_NAME in
  (* Enable SYSCFG clock *)
  clock_control_on clk STM32_CLOCK_BUS_APB2 LL_APB2_GRP1_PERIPH_SYSCFG ;;
  match (if pin <=? 3 then Some EXTICR1
         else if pin <=? 7 then Some EXTICR2
         else if pin <=? 11 then Some EXTICR3
         else if pin <=? 15 then Some EXTICR4
         else None) with
  | None => ret (- EINVAL)
  | Some exticr =>
      let shift := 4 * Z.rem pin 4 in
      do v <- read exticr;
      do msk <- shl_int 0xf shift;
      write exticr (Z.land v (u32 (Z.lnot msk))) ;;
      do v <- read exticr;
      do val <- shl_int port shift;
      write exticr (Z.lor v (u32 val)) ;;
      ret 0
  end.

End Driver.

(** ** The pin functions and the tables of the specification *)

Inductive pull := NoPull | PullUp | PullDown.
Inductive drive := PushPull | OpenDrain.
Inductive direction := DirOut | DirIn.

(** The closed enumeration of pin functions: a bias, a plain output or
    an alternate function with its drive and pull, or analog. *)
Inductive pin_function :=
  | Bias (p : pull)
  | Drive (d : drive) (p : pull)
  | AltFn (d : drive) (p : pull)
  | Analog.

#[global] Instance pull_eq_dec : EqDecision pull.
Proof. solve_decision. Defined.
#[global] Instance drive_eq_dec : EqDecision drive.
Proof. solve_decision. Defined.
#[global] Instance pin_function_eq_dec : EqDecision pin_function.
Proof. solve_decision. Defined.

Definition all_pin_functions : list pin_function :=
  [Bias NoPull; Bias PullUp; Bias PullDown;
   Drive PushPull NoPull; Drive PushPull PullUp; Drive PushPull PullDown;
   Drive OpenDrain NoPull; Drive OpenDrain PullUp; Drive OpenDrain PullDown;
   AltFn PushPull NoPull; AltFn PushPull PullUp; AltFn PushPull PullDown;
   AltFn OpenDrain NoPull; AltFn OpenDrain PullUp; AltFn OpenDrain PullDown;
   Analog].

(** Position of a pin function in [all_pin_functions]. *)
Definition pin_function_index (f : pin_function) : nat :=
  match f with
  | Bias NoPull => 0 | Bias PullUp => 1 | Bias PullDown => 2
  | Drive PushPull NoPull => 3 | Drive PushPull PullUp => 4
  | Drive PushPull PullDown => 5
  | Drive OpenDrain NoPull => 6 | Drive OpenDrain PullUp => 7
  | Drive OpenDrain PullDown => 8
  | AltFn PushPull NoPull => 9 | AltFn PushPull PullUp => 10
  | AltFn PushPull PullDown => 11
  | AltFn OpenDrain NoPull => 12 | AltFn OpenDrain PullUp => 13
  | AltFn OpenDrain PullDown => 14
  | Analog => 15
  end%nat.

(** The field codes of section 4.1 of the specification. *)
Definition mode_of (f : pin_function) : Z :=
  match f with
  | Bias _ => 0x0
  | Drive _ _ => 0x1
  | AltFn _ _ => 0x2
  | Analog => 0x3
  end.

Definition otype_of (f : pin_function) : Z :=
  match f with
  | Drive OpenDrain _ | AltFn OpenDrain _ => 0x1
  | _ => 0x0
  end.

Definition ospeed_of (f : pin_function) : Z :=
  match f with
  | Drive _ _ | AltFn _ _ => 0x2
  | Bias _ | Analog => 0x0
  end.

Definition pull_code (p : pull) : Z :=
  match p with NoPull => 0x0 | PullUp => 0x1 | PullDown => 0x2 end.

Definition pupd_of (f : pin_function) : Z :=
  match f with
  | Bias p | Drive _ p | AltFn _ p => pull_code p
  | Analog => 0x0
  end.

(** The rule table of section 4.2. *)
Definition flags_table (d : direction) (p : pull) : pin_function :=
  match d with
  | DirOut => Drive PushPull p
  | DirIn => Bias p
  end.

(** The [w]-bit field of [x] at bit [off]. *)
Definition field (off w x : Z) : Z := Z.land (Z.shiftr x off) (Z.ones w).

(** Section 4.3, a read-modify-write of a field: clear the field of the
    word read, OR in the new code, write back. *)
Definition set_field (off w v old : Z) : Z :=
  Z.lor (Z.land old (u32 (Z.lnot (Z.shiftl (Z.ones w) off)))) (u32 (Z.shiftl v off)).

Definition rmw (r : reg) (off w v old : Z) : list event :=
  [EvRead r old; EvWrite r (set_field off w v old)].

(** Bit [i] lies in the [w]-bit field at [off]. *)
Definition in_field (off w i : Z) : bool := (off <=? i) && (i <? off + w).

Definition is_clock_on (e : event) : bool :=
  match e with EvClockOn _ _ _ => true | _ => false end.

Definition is_afr_write (e : event) : bool :=
  match e with EvWrite (AFR _) _ => true | _ => false end.

Definition is_exticr_access (e : event) : bool :=
  match e with
  | EvRead (EXTICR1 | EXTICR2 | EXTICR3 | EXTICR4) _
  | EvWrite (EXTICR1 | EXTICR2 | EXTICR3 | EXTICR4) _ => true
  | _ => false
  end.

(** The selector register of index [k] (0..3). *)
Definition selector (k : Z) : reg :=
  if k =? 0 then EXTICR1 else if k =? 1 then EXTICR2
  else if k =? 2 then EXTICR3 else EXTICR4.

Definition exticr_val (r : reg) (s : stm32f4x_syscfg) : Z :=
  match r with
  | EXTICR1 => exticr1 s
  | EXTICR2 => exticr2 s
  | EXTICR3 => exticr3 s
  | _ => exticr4 s
  end.

(** The set/reset bit a call writes: [pin & 0x0f] to assert, 16 above
    it to deassert. *)
Definition bsr_bit (pin value : Z) : Z :=
  if value =? 0 then pin mod 16 + 16 else pin mod 16.

(** The C array [afr[2]] has two words: a list of another length is
    not a register block. *)
Definition gpio_wf (g : stm32f4x_gpio) : Prop := length (afr g) = 2%nat.

Section Tables.

Context {Hdr : soc_headers}.

(** The enumerator of each pin function. *)
Definition enum_val (f : pin_function) : Z :=
  match f with
  | Bias NoPull => STM32F4X_PIN_CONFIG_BIAS_HIGH_IMPEDANCE
  | Bias PullUp => STM32F4X_PIN_CONFIG_BIAS_PULL_UP
  | Bias PullDown => STM32F4X_PIN_CONFIG_BIAS_PULL_DOWN
  | Drive PushPull NoPull => STM32F4X_PIN_CONFIG_DRIVE_PUSH_PULL
  | Drive PushPull PullUp => STM32F4X_PIN_CONFIG_DRIVE_PUSH_UP
  | Drive PushPull PullDown => STM32F4X_PIN_CONFIG_DRIVE_PUSH_DOWN
  | Drive OpenDrain NoPull => STM32F4X_PIN_CONFIG_DRIVE_OPEN_DRAIN
  | Drive OpenDrain PullUp => STM32F4X_PIN_CONFIG_DRIVE_OPEN_UP
  | Drive OpenDrain PullDown => STM32F4X_PIN_CONFIG_DRIVE_OPEN_DOWN
  | AltFn PushPull NoPull => STM32F4X_PIN_CONFIG_AF_PUSH_PULL
  | AltFn PushPull PullUp => STM32F4X_PIN_CONFIG_AF_PUSH_UP
  | AltFn PushPull PullDown => STM32F4X_PIN_CONFIG_AF_PUSH_DOWN
  | AltFn OpenDrain NoPull => STM32F4X_PIN_CONFIG_AF_OPEN_DRAIN
  | AltFn OpenDrain PullUp => STM32F4X_PIN_CONFIG_AF_OPEN_UP
  | AltFn OpenDrain PullDown => STM32F4X_PIN_CONFIG_AF_OPEN_DOWN
  | Analog => STM32F4X_PIN_CONFIG_ANALOG
  end.

(** The enumerators of a C [enum] used as [case] labels are distinct. *)
Definition enum_distinct : Prop := NoDup (enum_val <$> all_pin_functions).

(** The flags word asks for direction [d]. *)
Definition has_direction (flags : Z) (d : direction) : Prop :=
  match d with
  | DirOut => Z.land flags GPIO_DIR_MASK = GPIO_DIR_OUT
  | DirIn => Z.land flags GPIO_DIR_MASK <> GPIO_DIR_OUT
  end.

(** The flags word asks for pull [p]. *)
Definition has_pull (flags : Z) (p : pull) : Prop :=
  match p with
  | PullUp => Z.land flags GPIO_PUD_MASK = GPIO_PUD_PULL_UP
  | PullDown => Z.land flags GPIO_PUD_MASK = GPIO_PUD_PULL_DOWN
  | NoPull => Z.land flags GPIO_PUD_MASK <> GPIO_PUD_PULL_UP /\
              Z.land flags GPIO_PUD_MASK <> GPIO_PUD_PULL_DOWN
  end.

(** The accesses of section 4.3, in order, from the block [g]. *)
Definition configure_trace (pin conf altf : Z) (g : stm32f4x_gpio) : list event :=
  (if altf =? 0 then []
   else rmw (AFR (pin / 8)) (pin mod 8 * 4) 4 altf (afr g !!! Z.to_nat (pin / 8))) ++
  rmw MODE (pin * 2) 2 (__func_to_mode conf) (mode g) ++
  (if __func_to_otype conf =? 0 then []
   else rmw OTYPE pin 1 (__func_to_otype conf) (otype g)) ++
  (if __func_to_ospeed conf =? 0 then []
   else rmw OSPEED (pin * 2) 2 (__func_to_ospeed conf) (ospeed g)) ++
  rmw PUPDR (pin * 2) 2 (__func_to_pupd conf) (pupdr g).

(** The block those accesses leave. *)
Definition configure_gpio (pin conf altf : Z) (g : stm32f4x_gpio) : stm32f4x_gpio :=
  {| mode := set_field (pin * 2) 2 (__func_to_mode conf) (mode g);
     otype := if __func_to_otype conf =? 0 then otype g
              else set_field pin 1 (__func_to_otype conf) (otype g);
     ospeed := if __func_to_ospeed conf =? 0 then ospeed g
               else set_field (pin * 2) 2 (__func_to_ospeed conf) (ospeed g);
     pupdr := set_field (pin * 2) 2 (__func_to_pupd conf) (pupdr g);
     idr := idr g;
     bsr := bsr g;
     afr := if altf =? 0 then afr g
            else <[Z.to_nat (pin / 8) :=
                     set_field (pin mod 8 * 4) 4 altf (afr g !!! Z.to_nat (pin / 8))]>
                   (afr g) |}.

End Tables.

(** The SYSCFG block a call of [stm32_gpio_enable_int] leaves for a
    pin 0..15: selector register pin/4 with the field of the pin set. *)
Definition route (port pin : Z) (s : stm32f4x_syscfg) : stm32f4x_syscfg :=
  let r := selector (pin / 4) in
  match store_syscfg r (set_field (pin mod 4 * 4) 4 port (exticr_val r s)) s with
  | Some s' => s'
  | None => s
  end.

(** ** Sample values *)

Definition sample_headers : soc_headers := {|
  EINVAL := 22;
  GPIO_DIR_MASK := 0x1;
  GPIO_DIR_OUT := 0x1;
  GPIO_PUD_MASK := 0x300;
  GPIO_PUD_PULL_UP := 0x100;
  GPIO_PUD_PULL_DOWN := 0x200;
  STM32F4X_PIN_CONFIG_BIAS_HIGH_IMPEDANCE := 0;
  STM32F4X_PIN_CONFIG_BIAS_PULL_UP := 1;
  STM32F4X_PIN_CONFIG_BIAS_PULL_DOWN := 2;
  STM32F4X_PIN_CONFIG_ANALOG := 3;
  STM32F4X_PIN_CONFIG_DRIVE_OPEN_DRAIN := 4;
  STM32F4X_PIN_CONFIG_DRIVE_OPEN_UP := 5;
  STM32F4X_PIN_CONFIG_DRIVE_OPEN_DOWN := 6;
  STM32F4X_PIN_CONFIG_DRIVE_PUSH_PULL := 7;
  STM32F4X_PIN_CONFIG_DRIVE_PUSH_UP := 8;
  STM32F4X_PIN_CONFIG_DRIVE_PUSH_DOWN := 9;
  STM32F4X_PIN_CONFIG_AF_PUSH_PULL := 10;
  STM32F4X_PIN_CONFIG_AF_PUSH_UP := 11;
  STM32F4X_PIN_CONFIG_AF_PUSH_DOWN := 12;
  STM32F4X_PIN_CONFIG_AF_OPEN_DRAIN := 13;
  STM32F4X_PIN_CONFIG_AF_OPEN_UP := 14;
  STM32F4X_PIN_CONFIG_AF_OPEN_DOWN := 15;
  STM32_CLOCK_CONTROL_NAME := "stm32-cc";
  STM32_CLOCK_BUS_APB2 := 3;
  LL_APB2_GRP1_PERIPH_SYSCFG := 0x4000;
  device_get_binding := fun _ => 0x20000400
|}.

(** The block after reset, with every register 0. *)
Definition gpio_reset : stm32f4x_gpio :=
  {| mode := 0; otype := 0; ospeed := 0; pupdr := 0; idr := 0; bsr := 0;
     afr := [0; 0] |}.

Definition syscfg_reset : stm32f4x_syscfg :=
  {| exticr1 := 0; exticr2 := 0; exticr3 := 0; exticr4 := 0 |}.

Definition machine_reset : machine :=
  {| gpio := gpio_reset; syscfg := syscfg_reset; mem := ∅ |}.

(** A block in use: pin 5 is an open-drain output at low speed with its
    pull-up on, and pin 1 uses alternate function 7. *)
Definition gpio_busy : stm32f4x_gpio :=
  {| mode := 0x400; otype := 0x20; ospeed := 0x400; pupdr := 0x400;
     idr := 0x8000; bsr := 0; afr := [0x70; 0] |}.

Definition machine_busy : machine :=
  {| gpio := gpio_busy;
     syscfg := {| exticr1 := 0x1234; exticr2 := 0x4321; exticr3 := 0; exticr4 := 0 |};
     mem := ∅ |}.

(** * Properties *)

(** ** Machine integers and bits *)

Lemma s32_congr (x : Z) : exists k, s32 x = x + k * 2 ^ 32.
Proof.
  exists (- ((x + 2 ^ 31) / 2 ^ 32)). unfold s32.
  pose proof (Z.div_mod (x + 2 ^ 31) (2 ^ 32)). lia.
Qed.

Lemma u32_s32 (x : Z) : u32 (s32 x) = u32 x.
Proof.
  destruct (s32_congr x) as [k ->]. unfold u32. apply Z_mod_plus_full.
Qed.

Lemma u32_lnot_s32 (x : Z) : u32 (Z.lnot (s32 x)) = u32 (Z.lnot x).
Proof.
  destruct (s32_congr x) as [k ->]. unfold u32, Z.lnot.
  replace (Z.pred (- (x + k * 2 ^ 32))) with (Z.pred (- x) + (- k) * 2 ^ 32) by lia.
  apply Z_mod_plus_full.
Qed.

Lemma u32_small (x : Z) : 0 <= x < 2 ^ 32 -> u32 x = x.
Proof. intros. unfold u32. apply Z.mod_small. assumption. Qed.

Lemma s32_small (x : Z) : - 2 ^ 31 <= x < 2 ^ 31 -> s32 x = x.
Proof. intros. unfold s32. rewrite Z.mod_small; lia. Qed.

Lemma u32_testbit (x i : Z) :
  Z.testbit (u32 x) i = (i <? 32) && Z.testbit x i.
Proof.
  unfold u32. destruct (Z.ltb_spec i 32).
  - destruct (Z.neg_nonneg_cases i).
    + rewrite !Z.testbit_neg_r by assumption. reflexivity.
    + rewrite Z.mod_pow2_bits_low by lia. reflexivity.
  - rewrite Z.mod_pow2_bits_high by lia. reflexivity.
Qed.

Lemma testbit_set_field (off w v old i : Z) :
  0 <= off -> 0 <= w -> 0 <= i ->
  Z.testbit (set_field off w v old) i =
    (Z.testbit old i && negb (in_field off w i) && (i <? 32))
    || ((i <? 32) && Z.testbit v (i - off)).
Proof.
  intros Hoff Hw Hi. unfold set_field, in_field.
  rewrite Z.lor_spec, Z.land_spec, !u32_testbit, Z.lnot_spec by assumption.
  rewrite !Z.shiftl_spec by assumption.
  rewrite Z.testbit_ones by assumption.
  replace (0 <=? i - off) with (off <=? i) by lia.
  replace (i - off <? w) with (i <? off + w) by lia.
  destruct (Z.testbit old i), (off <=? i), (i <? off + w), (i <? 32); reflexivity.
Qed.

Lemma testbit_field (off w x j : Z) :
  0 <= off -> 0 <= w -> 0 <= j ->
  Z.testbit (field off w x) j = Z.testbit x (j + off) && (j <? w).
Proof.
  intros. unfold field.
  rewrite Z.land_spec, Z.shiftr_spec, Z.testbit_ones by assumption.
  replace (0 <=? j) with true by lia. reflexivity.
Qed.

Lemma testbit_small (w v j : Z) :
  0 <= w -> 0 <= v < 2 ^ w -> w <= j -> Z.testbit v j = false.
Proof.
  intros Hw Hv Hj. rewrite <- (Z.mod_small v (2 ^ w)) by assumption.
  apply Z.mod_pow2_bits_high. lia.
Qed.

(** The field just set holds the code, when the code fits the field and
    the field lies in the word. *)
Lemma field_set_field (off w v old : Z) :
  0 <= off -> 0 <= w -> off + w <= 32 -> 0 <= v < 2 ^ w ->
  field off w (set_field off w v old) = v.
Proof.
  intros Hoff Hw Hin Hv. apply Z.bits_inj'. intros j Hj.
  rewrite testbit_field, testbit_set_field by lia.
  replace (j + off - off) with j by lia.
  unfold in_field.
  destruct (Z.ltb_spec j w).
  - replace (off <=? j + off) with true by lia.
    replace (j + off <? off + w) with true by lia.
    replace (j + off <? 32) with true by lia.
    cbn. rewrite !andb_false_r, andb_true_r. reflexivity.
  - rewrite (testbit_small w v j) by lia.
    rewrite !andb_false_r. reflexivity.
Qed.

(** Bits outside the field keep their value, when the code fits. *)
Lemma set_field_frame (off w v old i : Z) :
  0 <= off -> 0 <= w -> 0 <= v < 2 ^ w -> 0 <= i < 32 ->
  in_field off w i = false ->
  Z.testbit (set_field off w v old) i = Z.testbit old i.
Proof.
  intros Hoff Hw Hv Hi Hout.
  rewrite testbit_set_field, Hout by lia.
  replace (i <? 32) with true by lia.
  assert (Z.testbit v (i - off) = false) as ->.
  { unfold in_field in Hout.
    destruct (Z.leb_spec off i).
    - apply (testbit_small w); lia.
    - apply Z.testbit_neg_r. lia. }
  cbn. rewrite orb_false_r, !andb_true_r. reflexivity.
Qed.

Lemma set_field_clear (off w old : Z) :
  set_field off w 0 old = Z.land old (u32 (Z.lnot (Z.shiftl (Z.ones w) off))).
Proof. unfold set_field. rewrite Z.shiftl_0_l. apply Z.lor_0_r. Qed.

Lemma set_field_after_clear (off w v old : Z) :
  Z.lor (set_field off w 0 old) (u32 (Z.shiftl v off)) = set_field off w v old.
Proof. rewrite set_field_clear. reflexivity. Qed.

(** Writing the same field twice is writing it once. *)
Lemma set_field_idem (off w v old : Z) :
  set_field off w v (set_field off w v old) = set_field off w v old.
Proof.
  unfold set_field.
  set (a := u32 _). set (b := u32 _).
  apply Z.bits_inj'. intros n Hn.
  rewrite !Z.lor_spec, !Z.land_spec, !Z.lor_spec, !Z.land_spec.
  destruct (Z.testbit old n), (Z.testbit a n), (Z.testbit b n); reflexivity.
Qed.

Section Classifier.

Context {Hdr : soc_headers}.

Lemma enum_val_lookup (f : pin_function) :
  (enum_val <$> all_pin_functions) !! pin_function_index f = Some (enum_val f).
Proof. destruct f as [[]|[] []|[] []|]; reflexivity. Qed.

Lemma pin_function_index_inj (f g : pin_function) :
  pin_function_index f = pin_function_index g -> f = g.
Proof.
  destruct f as [[]|[] []|[] []|], g as [[]|[] []|[] []|];
    cbn; intros E; first [reflexivity | discriminate E].
Qed.

Lemma enum_val_inj (f g : pin_function) :
  enum_distinct -> enum_val f = enum_val g -> f = g.
Proof.
  intros Hd E. apply pin_function_index_inj.
  eapply NoDup_lookup; [exact Hd | apply enum_val_lookup |].
  rewrite E. apply enum_val_lookup.
Qed.

Lemma enum_val_eqb (f g : pin_function) :
  enum_distinct -> (enum_val f =? enum_val g) = bool_decide (f = g).
Proof.
  intros Hd. destruct (decide (f = g)) as [->|Hne].
  - rewrite Z.eqb_refl, bool_decide_true; reflexivity.
  - rewrite bool_decide_false by assumption.
    apply Z.eqb_neq. intros E. apply Hne. apply enum_val_inj; assumption.
Qed.

(** Write every enumerator as the [enum_val] of its pin function. *)
Ltac fold_enum :=
  change STM32F4X_PIN_CONFIG_BIAS_HIGH_IMPEDANCE with (enum_val (Bias NoPull));
  change STM32F4X_PIN_CONFIG_BIAS_PULL_UP with (enum_val (Bias PullUp));
  change STM32F4X_PIN_CONFIG_BIAS_PULL_DOWN with (enum_val (Bias PullDown));
  change STM32F4X_PIN_CONFIG_DRIVE_PUSH_PULL with (enum_val (Drive PushPull NoPull));
  change STM32F4X_PIN_CONFIG_DRIVE_PUSH_UP with (enum_val (Drive PushPull PullUp));
  change STM32F4X_PIN_CONFIG_DRIVE_PUSH_DOWN with (enum_val (Drive PushPull PullDown));
  change STM32F4X_PIN_CONFIG_DRIVE_OPEN_DRAIN with (enum_val (Drive OpenDrain NoPull));
  change STM32F4X_PIN_CONFIG_DRIVE_OPEN_UP with (enum_val (Drive OpenDrain PullUp));
  change STM32F4X_PIN_CONFIG_DRIVE_OPEN_DOWN with (enum_val (Drive OpenDrain PullDown));
  change STM32F4X_PIN_CONFIG_AF_PUSH_PULL with (enum_val (AltFn PushPull NoPull));
  change STM32F4X_PIN_CONFIG_AF_PUSH_UP with (enum_val (AltFn PushPull PullUp));
  change STM32F4X_PIN_CONFIG_AF_PUSH_DOWN with (enum_val (AltFn PushPull PullDown));
  change STM32F4X_PIN_CONFIG_AF_OPEN_DRAIN with (enum_val (AltFn OpenDrain NoPull));
  change STM32F4X_PIN_CONFIG_AF_OPEN_UP with (enum_val (AltFn OpenDrain PullUp));
  change STM32F4X_PIN_CONFIG_AF_OPEN_DOWN with (enum_val (AltFn OpenDrain PullDown));
  change STM32F4X_PIN_CONFIG_ANALOG with (enum_val Analog).

Ltac unfold_classifiers :=
  unfold __func_to_mode, __func_to_otype, __func_to_ospeed, __func_to_pupd,
    case_of, existsb.

Lemma classify_defined (f : pin_function) :
  enum_distinct ->
  __func_to_mode (enum_val f) = mode_of f /\
  __func_to_otype (enum_val f) = otype_of f /\
  __func_to_ospeed (enum_val f) = ospeed_of f /\
  __func_to_pupd (enum_val f) = pupd_of f.
Proof.
  intros Hd. unfold_classifiers. fold_enum.
  rewrite !(enum_val_eqb _ _ Hd).
  destruct f as [[]|[] []|[] []|]; repeat split; reflexivity.
Qed.

Lemma classify_other (func : Z) :
  (forall f, func <> enum_val f) ->
  __func_to_mode func = 0 /\ __func_to_otype func = 0 /\
  __func_to_ospeed func = 0 /\ __func_to_pupd func = 0.
Proof.
  intros Hout.
  assert (forall f, (func =? enum_val f) = false) as E
    by (intros f; apply Z.eqb_neq, Hout).
  unfold_classifiers. fold_enum. rewrite !E. repeat split; reflexivity.
Qed.

(** The codes the classifiers can return, whatever the input. *)
Lemma func_to_mode_range (func : Z) : 0 <= __func_to_mode func < 2 ^ 2.
Proof.
  unfold __func_to_mode.
  repeat match goal with |- context [if ?b then _ else _] => destruct b end; lia.
Qed.

Lemma func_to_otype_range (func : Z) : 0 <= __func_to_otype func < 2 ^ 1.
Proof.
  unfold __func_to_otype.
  repeat match goal with |- context [if ?b then _ else _] => destruct b end; lia.
Qed.

Lemma func_to_ospeed_range (func : Z) : 0 <= __func_to_ospeed func < 2 ^ 2.
Proof.
  unfold __func_to_ospeed.
  repeat match goal with |- context [if ?b then _ else _] => destruct b end; lia.
Qed.

Lemma func_to_pupd_range (func : Z) : 0 <= __func_to_pupd func < 2 ^ 2.
Proof.
  unfold __func_to_pupd.
  repeat match goal with |- context [if ?b then _ else _] => destruct b end; lia.
Qed.

(** C3: the four classifiers are total functions; on the enumerator of
    every defined pin function they return the code of the table of
    section 4.1 (mode: bias 0x0, plain drive 0x1, alternate function 0x2,
    analog 0x3; output type: open drain 0x1, others 0x0; speed: drive and
    alternate function 0x2, bias and analog 0x0; pull: none and analog
    0x0, up 0x1, down 0x2), and on any value that is the enumerator of no
    pin function each of the four returns 0. *)
Theorem classifier_table :
  enum_distinct ->
  (forall f : pin_function,
     __func_to_mode (enum_val f) = mode_of f /\
     __func_to_otype (enum_val f) = otype_of f /\
     __func_to_ospeed (enum_val f) = ospeed_of f /\
     __func_to_pupd (enum_val f) = pupd_of f) /\
  (forall func : Z,
     (forall f, func <> enum_val f) ->
     __func_to_mode func = 0 /\ __func_to_otype func = 0 /\
     __func_to_ospeed func = 0 /\ __func_to_pupd func = 0).
Proof.
  intros Hd. split.
  - intros f. apply classify_defined. exact Hd.
  - apply classify_other.
Qed.

End Classifier.

Lemma classifier_table_witness :
  @enum_distinct sample_headers /\
  (forall f : pin_function,
     @__func_to_mode sample_headers (@enum_val sample_headers f) = mode_of f /\
     @__func_to_otype sample_headers (@enum_val sample_headers f) = otype_of f /\
     @__func_to_ospeed sample_headers (@enum_val sample_headers f) = ospeed_of f /\
     @__func_to_pupd sample_headers (@enum_val sample_headers f) = pupd_of f) /\
  (forall func : Z,
     (forall f, func <> @enum_val sample_headers f) ->
     @__func_to_mode sample_headers func = 0 /\
     @__func_to_otype sample_headers func = 0 /\
     @__func_to_ospeed sample_headers func = 0 /\
     @__func_to_pupd sample_headers func = 0).
Proof.
  split.
  - apply (bool_decide_unpack _). vm_compute. exact I.
  - apply (@classifier_table sample_headers).
    apply (bool_decide_unpack _). vm_compute. exact I.
Defined.

(** ** Running the monad *)

Lemma run_bind {A B} (c : M A) (k : A -> M B) m a m1 t1 b m2 t2 :
  c m = Some (a, m1, t1) ->
  k a m1 = Some (b, m2, t2) ->
  bind c k m = Some (b, m2, t1 ++ t2).
Proof. intros Hc Hk. unfold bind. rewrite Hc. cbn. rewrite Hk. reflexivity. Qed.

Lemma run_eq {A} (c : M A) m a m1 t a' m1' t' :
  c m = Some (a, m1, t) -> a = a' -> m1 = m1' -> t = t' ->
  c m = Some (a', m1', t').
Proof. intros E <- <- <-. exact E. Qed.

Lemma run_ret {A} (a : A) m : ret a m = Some (a, m, []).
Proof. reflexivity. Qed.

Lemma run_read r m v : load r m = Some v -> read r m = Some (v, m, [EvRead r v]).
Proof. intros E. unfold read. rewrite E. reflexivity. Qed.

Lemma run_write r v m m' :
  store r v m = Some m' -> write r v m = Some (tt, m', [EvWrite r v]).
Proof. intros E. unfold write. rewrite E. reflexivity. Qed.

Lemma run_mul_int a b m :
  INT_MIN <= a * b <= INT_MAX -> mul_int a b m = Some (a * b, m, []).
Proof.
  intros Hr. unfold mul_int, in_int.
  replace ((INT_MIN <=? a * b) && (a * b <=? INT_MAX)) with true by lia.
  reflexivity.
Qed.

Lemma run_shl_int a n m :
  0 <= n < 32 -> shl_int a n m = Some (s32 (Z.shiftl a n), m, []).
Proof.
  intros Hn. unfold shl_int, shift_ok.
  replace ((0 <=? n) && (n <? 32)) with true by lia. reflexivity.
Qed.

Lemma run_shl_u32 a n m :
  0 <= n < 32 -> shl_u32 a n m = Some (u32 (Z.shiftl a n), m, []).
Proof.
  intros Hn. unfold shl_u32, shift_ok.
  replace ((0 <=? n) && (n <? 32)) with true by lia. reflexivity.
Qed.

Lemma run_shr_u32 a n m :
  0 <= n < 32 -> shr_u32 a n m = Some (Z.shiftr a n, m, []).
Proof.
  intros Hn. unfold shr_u32, shift_ok.
  replace ((0 <=? n) && (n <? 32)) with true by lia. reflexivity.
Qed.

Lemma afr_index_in (k : Z) (l : list Z) :
  0 <= k < Z.of_nat (length l) -> afr_index k l = Some (Z.to_nat k).
Proof.
  intros Hk. unfold afr_index.
  replace ((0 <=? k) && (k <? Z.of_nat (length l))) with true by lia.
  reflexivity.
Qed.

Lemma load_afr (k : Z) (m : machine) :
  gpio_wf (gpio m) -> 0 <= k < 2 ->
  load (AFR k) m = Some (afr (gpio m) !!! Z.to_nat k).
Proof.
  intros Hwf Hk. unfold gpio_wf in Hwf. cbn [load].
  rewrite afr_index_in by lia.
  apply list_lookup_lookup_total_lt. lia.
Qed.

Lemma store_afr (k v : Z) (m : machine) :
  gpio_wf (gpio m) -> 0 <= k < 2 ->
  store (AFR k) v m =
    Some (set_gpio m {| mode := mode (gpio m); otype := otype (gpio m);
                        ospeed := ospeed (gpio m); pupdr := pupdr (gpio m);
                        idr := idr (gpio m); bsr := bsr (gpio m);
                        afr := <[Z.to_nat k := v]> (afr (gpio m)) |}).
Proof.
  intros Hwf Hk. unfold gpio_wf in Hwf. cbn [store store_gpio].
  rewrite afr_index_in by lia. reflexivity.
Qed.

(** One step of a call: run the first action, continue with the rest. *)
Ltac run_step tac :=
  eapply run_bind; [ tac | cbv beta ].

Ltac run_prim :=
  first [ apply run_ret
        | apply run_mul_int; unfold INT_MIN, INT_MAX; lia
        | apply run_shl_int; lia
        | apply run_shl_u32; lia
        | apply run_shr_u32; lia
        | apply run_read; reflexivity
        | apply run_write; reflexivity ].

Section Programmer.

Context {Hdr : soc_headers}.

Lemma run_configure (pin conf altf : Z) (m : machine) :
  gpio_wf (gpio m) -> 0 <= pin <= 15 ->
  stm32_gpio_configure pin conf altf m
  = Some (0, set_gpio m (configure_gpio pin conf altf (gpio m)),
          configure_trace pin conf altf (gpio m)).
Proof.
  intros Hwf Hpin.
  assert (0 <= pin / 8 < 2) as Hk by (split; [apply Z.div_pos | apply Z.div_lt_upper_bound]; lia).
  pose proof (Z.mod_pos_bound pin 8 ltac:(lia)) as Hoff.
  enough (exists m' t, stm32_gpio_configure pin conf altf m = Some (0, m', t) /\
            m' = set_gpio m (configure_gpio pin conf altf (gpio m)) /\
            t = configure_trace pin conf altf (gpio m)) as (m' & t & -> & -> & ->)
    by reflexivity.
  unfold stm32_gpio_configure, configure_gpio, configure_trace, truthy, rmw.
  rewrite (Z.shiftr_div_pow2 pin 3) by lia.
  change 7 with (Z.ones 3). rewrite (Z.land_ones pin 3) by lia.
  change (2 ^ 3) with 8.
  destruct (altf =? 0), (__func_to_otype conf =? 0), (__func_to_ospeed conf =? 0);
    cbn [negb]; do 2 eexists; (split; [|split]).
  all: try (run_step ltac:(apply run_ret)).
  all: try (run_step ltac:(run_step ltac:(apply run_read; apply load_afr; assumption);
                           do 2 run_step run_prim;
                           apply run_write; apply store_afr; assumption)).
  all: try (do 6 run_step run_prim;
            run_step ltac:(first [apply run_ret | do 3 run_step run_prim; run_prim]);
            run_step ltac:(first [apply run_ret | do 5 run_step run_prim; run_prim]);
            do 6 run_step run_prim; apply run_ret).
  all: cbn [set_gpio gpio syscfg mem mode otype ospeed pupdr idr bsr afr app];
    rewrite ?u32_lnot_s32, ?u32_s32; reflexivity.
Qed.

End Programmer.

Section ProgrammerClaims.

Context {Hdr : soc_headers}.

Lemma configure_gpio_wf (pin conf altf : Z) (g : stm32f4x_gpio) :
  gpio_wf g -> gpio_wf (configure_gpio pin conf altf g).
Proof.
  unfold gpio_wf, configure_gpio. cbn [afr]. intros Hwf.
  destruct (altf =? 0); [assumption|].
  rewrite length_insert. assumption.
Qed.

Lemma configure_gpio_idem (pin conf altf : Z) (g : stm32f4x_gpio) :
  gpio_wf g -> 0 <= pin <= 15 ->
  configure_gpio pin conf altf (configure_gpio pin conf altf g)
  = configure_gpio pin conf altf g.
Proof.
  intros Hwf Hpin. unfold gpio_wf in Hwf.
  assert (Z.to_nat (pin / 8) < length (afr g))%nat as Hk.
  { assert (0 <= pin / 8 < 2)
      by (split; [apply Z.div_pos | apply Z.div_lt_upper_bound]; lia).
    lia. }
  unfold configure_gpio. cbn [mode otype ospeed pupdr idr bsr afr].
  f_equal.
  - apply set_field_idem.
  - destruct (__func_to_otype conf =? 0); [reflexivity | apply set_field_idem].
  - destruct (__func_to_ospeed conf =? 0); [reflexivity | apply set_field_idem].
  - apply set_field_idem.
  - destruct (altf =? 0); [reflexivity|].
    rewrite list_lookup_total_insert_eq by assumption.
    rewrite set_field_idem. apply list_insert_insert_eq.
Qed.

(** C4: for a pin 0..15, any function value and any alternate-function
    code, the call returns 0 after exactly this sequence of register
    accesses: when [altf] is non-zero, a read-modify-write of the nibble
    at bit (pin mod 8)*4 of alternate-function word pin/8 with [altf];
    then a read-modify-write of the 2-bit mode field at bit pin*2 with
    the mode code; then, only when the output-type code is non-zero, one
    of the output-type bit at bit pin, and, only when the speed code is
    non-zero, one of the 2-bit speed field at bit pin*2; then, always, one
    of the 2-bit pull field at bit pin*2 with the pull code.  A
    read-modify-write reads the word, clears the field, ORs the code in
    and writes the word back. *)
Theorem configure_sequence (pin conf altf : Z) (m : machine) :
  gpio_wf (gpio m) -> 0 <= pin <= 15 ->
  exists m',
    stm32_gpio_configure pin conf altf m =
      Some (0, m',
            (if altf =? 0 then []
             else rmw (AFR (pin / 8)) (pin mod 8 * 4) 4 altf
                      (afr (gpio m) !!! Z.to_nat (pin / 8))) ++
            rmw MODE (pin * 2) 2 (__func_to_mode conf) (mode (gpio m)) ++
            (if __func_to_otype conf =? 0 then []
             else rmw OTYPE pin 1 (__func_to_otype conf) (otype (gpio m))) ++
            (if __func_to_ospeed conf =? 0 then []
             else rmw OSPEED (pin * 2) 2 (__func_to_ospeed conf) (ospeed (gpio m))) ++
            rmw PUPDR (pin * 2) 2 (__func_to_pupd conf) (pupdr (gpio m))).
Proof.
  intros Hwf Hpin. eexists. apply run_configure; assumption.
Qed.

(** C9: for every machine state with a well-formed block, pin 0..15,
    function value and alternate-function code, configuring twice leaves
    exactly the state that configuring once leaves. *)
Theorem configure_idempotent (pin conf altf : Z) (m : machine) :
  gpio_wf (gpio m) -> 0 <= pin <= 15 ->
  exists m1 t1 t2,
    stm32_gpio_configure pin conf altf m = Some (0, m1, t1) /\
    stm32_gpio_configure pin conf altf m1 = Some (0, m1, t2).
Proof.
  intros Hwf Hpin.
  exists (set_gpio m (configure_gpio pin conf altf (gpio m))).
  do 2 eexists. split.
  - apply run_configure; assumption.
  - rewrite run_configure; cbn [gpio set_gpio]; [| apply configure_gpio_wf; assumption | assumption].
    rewrite configure_gpio_idem by assumption.
    unfold set_gpio. cbn [gpio syscfg mem]. reflexivity.
Qed.

End ProgrammerClaims.

Section ProgrammerFrame.

Context {Hdr : soc_headers}.

(** C2, as the code has it: configuring pin 5 as a push-pull output with
    no alternate function reads and writes the mode, speed and pull
    registers only; it sets mode bits [11:10] to 01, speed bits [11:10]
    to 10 and pull bits [11:10] to 00, changes no other bit of these
    registers, and leaves the output-type register (so its bit 5, 0 after
    reset) and every other register as they were. *)
Theorem configure_pin5_push_pull (m : machine) :
  enum_distinct -> gpio_wf (gpio m) ->
  exists m',
    stm32_gpio_configure 5 STM32F4X_PIN_CONFIG_DRIVE_PUSH_PULL 0 m =
      Some (0, m',
            rmw MODE 10 2 1 (mode (gpio m)) ++
            rmw OSPEED 10 2 2 (ospeed (gpio m)) ++
            rmw PUPDR 10 2 0 (pupdr (gpio m))) /\
    field 10 2 (mode (gpio m')) = 1 /\
    otype (gpio m') = otype (gpio m) /\
    field 10 2 (ospeed (gpio m')) = 2 /\
    field 10 2 (pupdr (gpio m')) = 0 /\
    (forall i, 0 <= i < 32 -> in_field 10 2 i = false ->
       Z.testbit (mode (gpio m')) i = Z.testbit (mode (gpio m)) i /\
       Z.testbit (ospeed (gpio m')) i = Z.testbit (ospeed (gpio m)) i /\
       Z.testbit (pupdr (gpio m')) i = Z.testbit (pupdr (gpio m)) i) /\
    afr (gpio m') = afr (gpio m) /\
    idr (gpio m') = idr (gpio m) /\
    bsr (gpio m') = bsr (gpio m).
Proof.
  intros Hd Hwf.
  destruct (classify_defined (Drive PushPull NoPull) Hd) as (Em & Eo & Es & Ep).
  cbn [enum_val mode_of otype_of ospeed_of pupd_of pull_code] in Em, Eo, Es, Ep.
  eexists. split.
  { rewrite run_configure by (assumption || lia).
    unfold configure_trace. rewrite Em, Eo, Es, Ep. cbn [Z.eqb app].
    reflexivity. }
  unfold configure_gpio. rewrite Em, Eo, Es, Ep.
  cbn [set_gpio gpio mode otype ospeed pupdr idr bsr afr Z.eqb Z.mul Pos.mul].
  split; [apply field_set_field; lia|].
  split; [reflexivity|].
  split; [apply field_set_field; lia|].
  split; [apply field_set_field; lia|].
  split; [|repeat split].
  intros i Hi Hout. repeat split; apply set_field_frame; lia || assumption.
Qed.

(** C5, as the code has it: for a pin 0..15, any function value and an
    alternate-function code that fits its four bits (0..15), every bit
    outside the fields of the configured pin keeps its value: the bits of
    the other pins in the mode, output-type, speed and pull registers and
    in the alternate-function words, and the input-data and set/reset
    registers, the selector registers and memory as a whole.  When the
    code is 0 no alternate-function word is written. *)
Theorem configure_frame (pin conf altf : Z) (m : machine) :
  gpio_wf (gpio m) -> 0 <= pin <= 15 -> 0 <= altf <= 15 ->
  exists m' t,
    stm32_gpio_configure pin conf altf m = Some (0, m', t) /\
    (forall i, 0 <= i < 32 -> in_field (pin * 2) 2 i = false ->
       Z.testbit (mode (gpio m')) i = Z.testbit (mode (gpio m)) i /\
       Z.testbit (ospeed (gpio m')) i = Z.testbit (ospeed (gpio m)) i /\
       Z.testbit (pupdr (gpio m')) i = Z.testbit (pupdr (gpio m)) i) /\
    (forall i, 0 <= i < 32 -> i <> pin ->
       Z.testbit (otype (gpio m')) i = Z.testbit (otype (gpio m)) i) /\
    (forall (k : nat) i, 0 <= i < 32 ->
       (Z.of_nat k = pin / 8 -> in_field (pin mod 8 * 4) 4 i = false) ->
       Z.testbit (afr (gpio m') !!! k) i = Z.testbit (afr (gpio m) !!! k) i) /\
    idr (gpio m') = idr (gpio m) /\
    bsr (gpio m') = bsr (gpio m) /\
    syscfg m' = syscfg m /\
    mem m' = mem m /\
    (altf = 0 ->
       afr (gpio m') = afr (gpio m) /\ existsb is_afr_write t = false).
Proof.
  intros Hwf Hpin Haltf.
  pose proof (func_to_mode_range conf) as Rm.
  pose proof (func_to_otype_range conf) as Ro.
  pose proof (func_to_ospeed_range conf) as Rs.
  pose proof (func_to_pupd_range conf) as Rp.
  pose proof (Z.mod_pos_bound pin 8 ltac:(lia)) as Hoff.
  assert (0 <= pin / 8 < 2) as Hk
    by (split; [apply Z.div_pos | apply Z.div_lt_upper_bound]; lia).
  do 2 eexists. split; [apply run_configure; assumption|].
  unfold configure_gpio, configure_trace.
  cbn [set_gpio gpio syscfg mem mode otype ospeed pupdr idr bsr afr].
  split; [|split; [|split; [|split; [|split; [|split; [|split]]]]]];
    try reflexivity.
  - intros i Hi Hout. repeat split.
    + apply set_field_frame; lia || assumption.
    + destruct (__func_to_ospeed conf =? 0); [reflexivity|].
      apply set_field_frame; lia || assumption.
    + apply set_field_frame; lia || assumption.
  - intros i Hi Hne.
    destruct (__func_to_otype conf =? 0); [reflexivity|].
    apply set_field_frame; try lia. unfold in_field. lia.
  - intros k i Hi Hout.
    destruct (altf =? 0); [reflexivity|].
    destruct (decide (k = Z.to_nat (pin / 8))) as [->|Hne].
    + rewrite list_lookup_total_insert_eq by (unfold gpio_wf in Hwf; lia).
      apply set_field_frame; try lia. apply Hout. lia.
    + rewrite list_lookup_total_insert_ne by congruence. reflexivity.
  - intros ->. cbn [Z.eqb]. split; [reflexivity|].
    unfold rmw.
    destruct (__func_to_otype conf =? 0), (__func_to_ospeed conf =? 0); reflexivity.
Qed.

End ProgrammerFrame.

(** A push-pull output on pin 5 of a block in use: the speed field, 01
    before the call, is 10 after it: neither cleared nor kept. *)
Lemma configure_pin5_speed_counterexample :
  ~ (exists m' t,
       @stm32_gpio_configure sample_headers 5
         (@STM32F4X_PIN_CONFIG_DRIVE_PUSH_PULL sample_headers) 0 machine_busy
       = Some (0, m', t) /\
       (field 10 2 (ospeed (gpio m')) = 0 \/
        field 10 2 (ospeed (gpio m')) = field 10 2 (ospeed (gpio machine_busy)))).
Proof.
  intros (m' & t & E & Hs).
  rewrite run_configure in E by (reflexivity || lia).
  injection E as <- _. vm_compute in Hs. destruct Hs; discriminate.
Qed.

(** Alternate-function code 16 on pin 0 of a block after reset sets bit 4
    of the first alternate-function word, a bit of the nibble of pin 1. *)
Lemma configure_frame_counterexample :
  ~ (exists m' t,
       @stm32_gpio_configure sample_headers 0
         (@STM32F4X_PIN_CONFIG_AF_PUSH_PULL sample_headers) 16 machine_reset
       = Some (0, m', t) /\
       Z.testbit (afr (gpio m') !!! 0%nat) 4
       = Z.testbit (afr (gpio machine_reset) !!! 0%nat) 4).
Proof.
  intros (m' & t & E & Hs).
  rewrite run_configure in E by (reflexivity || lia).
  injection E as <- _. vm_compute in Hs. discriminate.
Qed.

Lemma bsr_bit_range (pin value : Z) : 0 <= bsr_bit pin value <= 31.
Proof.
  unfold bsr_bit. pose proof (Z.mod_pos_bound pin 16).
  destruct (value =? 0); lia.
Qed.

Lemma u32_s32_bit (n : Z) : 0 <= n <= 31 -> u32 (s32 (Z.shiftl 1 n)) = 2 ^ n.
Proof.
  intros Hn. rewrite u32_s32, Z.shiftl_1_l. apply u32_small.
  split; [apply Z.pow_nonneg; lia | apply Z.pow_lt_mono_r; lia].
Qed.

Lemma run_set (pin value : Z) (m : machine) :
  stm32_gpio_set pin value m =
    Some (0,
          set_gpio m {| mode := mode (gpio m); otype := otype (gpio m);
                        ospeed := ospeed (gpio m); pupdr := pupdr (gpio m);
                        idr := idr (gpio m); bsr := 2 ^ bsr_bit pin value;
                        afr := afr (gpio m) |},
          [EvWrite BSR (2 ^ bsr_bit pin value)]).
Proof.
  pose proof (Z.mod_pos_bound pin 16 ltac:(lia)) as Hb.
  unfold stm32_gpio_set, truthy, bsr_bit.
  change 15 with (Z.ones 4). rewrite (Z.land_ones pin 4) by lia.
  change (2 ^ 4) with 16.
  destruct (value =? 0); cbn [negb].
  - rewrite <- (u32_s32_bit (pin mod 16 + 16)) by lia.
    eapply run_eq;
      [run_step ltac:(run_step run_prim; run_prim); apply run_ret | reflexivity..].
  - rewrite <- (u32_s32_bit (pin mod 16)) by lia.
    eapply run_eq;
      [run_step ltac:(run_step run_prim; run_prim); apply run_ret | reflexivity..].
Qed.

Lemma run_get (pin : Z) (m : machine) :
  0 <= pin < 32 ->
  stm32_gpio_get pin m =
    Some (Z.b2z (Z.testbit (idr (gpio m)) pin), m, [EvRead IDR (idr (gpio m))]).
Proof.
  intros Hpin. unfold stm32_gpio_get.
  replace (Z.b2z (Z.testbit (idr (gpio m)) pin))
    with (s32 (Z.land (Z.shiftr (idr (gpio m)) pin) 1)).
  - eapply run_eq; [do 2 run_step run_prim; apply run_ret | reflexivity..].
  - change 1 with (Z.ones 1). rewrite Z.land_ones by lia.
    rewrite Z.shiftr_div_pow2 by lia. change (2 ^ 1) with 2.
    rewrite <- Z.testbit_spec' by lia.
    apply s32_small. destruct (Z.testbit _ _); cbn; lia.
Qed.

(** C7: for a pin 0..15, [stm32_gpio_set] returns 0 after one access, a
    write to the set/reset register of a word whose only set bit is bit
    [pin] when [value] is non-zero and bit [pin]+16 when it is zero; and
    [stm32_gpio_get] reads the input-data register once and returns its
    bit [pin] as 0 or 1. *)
Theorem set_get_pin (pin value : Z) (m : machine) :
  0 <= pin <= 15 ->
  (exists v m',
     stm32_gpio_set pin value m = Some (0, m', [EvWrite BSR v]) /\
     bsr (gpio m') = v /\
     forall i, 0 <= i ->
       Z.testbit v i = (i =? (if value =? 0 then pin + 16 else pin))) /\
  stm32_gpio_get pin m =
    Some (Z.b2z (Z.testbit (idr (gpio m)) pin), m, [EvRead IDR (idr (gpio m))]).
Proof.
  intros Hpin. split.
  - do 2 eexists. split; [apply run_set|]. split; [reflexivity|].
    intros i Hi. unfold bsr_bit. rewrite (Z.mod_small pin 16) by lia.
    rewrite Z.pow2_bits_eqb by (destruct (value =? 0); lia).
    apply Z.eqb_sym.
  - apply run_get. lia.
Qed.

(** C10: for every [int] pin, in range or not, [stm32_gpio_set] shifts by
    [pin & 0x0f], or by 16 more to deassert: a count within 0..31, so the
    call is defined, returns 0, and writes to the set/reset register, in
    one access, the word whose only set bit is bit (pin mod 16) to assert
    and bit (pin mod 16)+16 to deassert. *)
Theorem set_masks_pin (pin value : Z) (m : machine) :
  exists v m',
    stm32_gpio_set pin value m = Some (0, m', [EvWrite BSR v]) /\
    Z.land pin 0x0f = pin mod 16 /\
    0 <= (if value =? 0 then pin mod 16 + 16 else pin mod 16) <= 31 /\
    forall i, 0 <= i ->
      Z.testbit v i = (i =? (if value =? 0 then pin mod 16 + 16 else pin mod 16)).
Proof.
  do 2 eexists. split; [apply run_set|].
  pose proof (bsr_bit_range pin value) as Hr. unfold bsr_bit in *.
  split; [|split].
  - change 15 with (Z.ones 4). apply Z.land_ones. lia.
  - exact Hr.
  - intros i Hi. rewrite Z.pow2_bits_eqb by lia. apply Z.eqb_sym.
Qed.


Section Router.

Context {Hdr : soc_headers}.

Lemma selector_cases (k : Z) :
  0 <= k < 4 -> k = 0 \/ k = 1 \/ k = 2 \/ k = 3.
Proof. lia. Qed.

Lemma store_selector (k v : Z) (m : machine) :
  0 <= k < 4 ->
  exists m',
    store (selector k) v m = Some m' /\
    load (selector k) m' = Some v /\
    exticr_val (selector k) (syscfg m') = v /\
    (forall w, store (selector k) w m' = store (selector k) w m) /\
    (forall k', 0 <= k' < 4 -> k' <> k ->
       exticr_val (selector k') (syscfg m') = exticr_val (selector k') (syscfg m)) /\
    gpio m' = gpio m /\ mem m' = mem m.
Proof.
  intros Hk.
  destruct (selector_cases k Hk) as [-> | [-> | [-> | ->]]];
    (eexists; split; [reflexivity|]; repeat split;
     intros k' Hk' Hne;
     destruct (selector_cases k' Hk') as [-> | [-> | [-> | ->]]];
     first [reflexivity | contradiction]).
Qed.

Lemma load_selector (k : Z) (m : machine) :
  load (selector k) m = Some (exticr_val (selector k) (syscfg m)).
Proof.
  unfold selector.
  destruct (k =? 0); [reflexivity|].
  destruct (k =? 1); [reflexivity|].
  destruct (k =? 2); reflexivity.
Qed.

Lemma select_exticr (pin : Z) :
  0 <= pin <= 15 ->
  (if pin <=? 3 then Some EXTICR1
   else if pin <=? 7 then Some EXTICR2
   else if pin <=? 11 then Some EXTICR3
   else if pin <=? 15 then Some EXTICR4
   else None) = Some (selector (pin / 4)).
Proof.
  intros Hpin. unfold selector.
  destruct (Z.leb_spec pin 3).
  { replace (pin / 4) with 0 by (symmetry; apply Z.div_small; lia). reflexivity. }
  destruct (Z.leb_spec pin 7).
  { replace (pin / 4) with 1 by (apply (Z.div_unique pin 4 1 (pin - 4)); lia).
    reflexivity. }
  destruct (Z.leb_spec pin 11).
  { replace (pin / 4) with 2 by (apply (Z.div_unique pin 4 2 (pin - 8)); lia).
    reflexivity. }
  destruct (Z.leb_spec pin 15); [|lia].
  replace (pin / 4) with 3 by (apply (Z.div_unique pin 4 3 (pin - 12)); lia).
  reflexivity.
Qed.

Lemma run_enable_int (port pin : Z) (m : machine) :
  0 <= pin <= 15 ->
  exists m',
    store (selector (pin / 4))
          (set_field (pin mod 4 * 4) 4 port
             (exticr_val (selector (pin / 4)) (syscfg m))) m = Some m' /\
    stm32_gpio_enable_int port pin m =
      Some (0, m',
            [EvClockOn (device_get_binding STM32_CLOCK_CONTROL_NAME)
                       STM32_CLOCK_BUS_APB2 LL_APB2_GRP1_PERIPH_SYSCFG;
             EvRead (selector (pin / 4)) (exticr_val (selector (pin / 4)) (syscfg m));
             EvWrite (selector (pin / 4))
                     (set_field (pin mod 4 * 4) 4 0
                        (exticr_val (selector (pin / 4)) (syscfg m)));
             EvRead (selector (pin / 4))
                    (set_field (pin mod 4 * 4) 4 0
                       (exticr_val (selector (pin / 4)) (syscfg m)));
             EvWrite (selector (pin / 4))
                     (set_field (pin mod 4 * 4) 4 port
                        (exticr_val (selector (pin / 4)) (syscfg m)))]).
Proof.
  intros Hpin.
  assert (0 <= pin / 4 < 4) as Hk
    by (split; [apply Z.div_pos | apply Z.div_lt_upper_bound]; lia).
  pose proof (Z.mod_pos_bound pin 4 ltac:(lia)) as Hoff.
  set (r := selector (pin / 4)). set (old := exticr_val r (syscfg m)).
  destruct (store_selector (pin / 4) (set_field (pin mod 4 * 4) 4 0 old) m Hk)
    as (m1 & S1 & L1 & _ & W1 & _).
  destruct (store_selector (pin / 4) (set_field (pin mod 4 * 4) 4 port old) m Hk)
    as (m2 & S2 & _).
  fold r in S1, L1, W1, S2.
  exists m2. split; [exact S2|].
  unfold stm32_gpio_enable_int.
  rewrite select_exticr by assumption. fold r.
  rewrite Z.rem_mod_nonneg by lia. rewrite (Z.mul_comm 4).
  eapply run_eq.
  { run_step ltac:(reflexivity).
    run_step ltac:(apply run_read; apply load_selector). fold r old.
    run_step run_prim.
    change 15 with (Z.ones 4).
    rewrite u32_lnot_s32, <- set_field_clear.
    run_step ltac:(apply run_write; exact S1).
    run_step ltac:(apply run_read; exact L1).
    run_step run_prim.
    rewrite u32_s32, set_field_after_clear.
    run_step ltac:(apply run_write; rewrite W1; exact S2).
    apply run_ret. }
  all: reflexivity.
Qed.

Lemma run_enable_int_high (port pin : Z) (m : machine) :
  15 < pin ->
  stm32_gpio_enable_int port pin m =
    Some (- EINVAL, m,
          [EvClockOn (device_get_binding STM32_CLOCK_CONTROL_NAME)
                     STM32_CLOCK_BUS_APB2 LL_APB2_GRP1_PERIPH_SYSCFG]).
Proof.
  intros Hpin. unfold stm32_gpio_enable_int.
  replace (pin <=? 3) with false by lia.
  replace (pin <=? 7) with false by lia.
  replace (pin <=? 11) with false by lia.
  replace (pin <=? 15) with false by lia.
  reflexivity.
Qed.

(** C1, as the code has it: for every port and every pin above 15 the
    call returns [-EINVAL] and leaves the machine as it was, without
    reading or writing a selector register; the one thing it has done by
    then is the SYSCFG clock enable, which comes before the pin is
    looked at. *)
Theorem enable_int_rejects (port pin : Z) (m : machine) :
  15 < pin ->
  exists t,
    stm32_gpio_enable_int port pin m = Some (- EINVAL, m, t) /\
    existsb is_exticr_access t = false /\
    t = [EvClockOn (device_get_binding STM32_CLOCK_CONTROL_NAME)
                   STM32_CLOCK_BUS_APB2 LL_APB2_GRP1_PERIPH_SYSCFG].
Proof.
  intros Hpin. eexists. split; [apply run_enable_int_high; assumption|].
  split; reflexivity.
Qed.

(** C8, as the code has it: for a port identifier that fits four bits
    (0..15) and a pin 0..15, the call returns 0 after enabling the SYSCFG
    clock and two read-modify-writes of selector register pin/4: the
    first clears the 4-bit field at bit (pin mod 4)*4, the second ORs the
    port into it.  The field then holds the port, every other bit of that
    register and the three other selector registers keep their values. *)
Theorem enable_int_routes (port pin : Z) (m : machine) :
  0 <= port <= 15 -> 0 <= pin <= 15 ->
  exists m',
    stm32_gpio_enable_int port pin m =
      Some (0, m',
            [EvClockOn (device_get_binding STM32_CLOCK_CONTROL_NAME)
                       STM32_CLOCK_BUS_APB2 LL_APB2_GRP1_PERIPH_SYSCFG;
             EvRead (selector (pin / 4)) (exticr_val (selector (pin / 4)) (syscfg m));
             EvWrite (selector (pin / 4))
                     (set_field (pin mod 4 * 4) 4 0
                        (exticr_val (selector (pin / 4)) (syscfg m)));
             EvRead (selector (pin / 4))
                    (set_field (pin mod 4 * 4) 4 0
                       (exticr_val (selector (pin / 4)) (syscfg m)));
             EvWrite (selector (pin / 4))
                     (set_field (pin mod 4 * 4) 4 port
                        (exticr_val (selector (pin / 4)) (syscfg m)))]) /\
    field (pin mod 4 * 4) 4 (exticr_val (selector (pin / 4)) (syscfg m')) = port /\
    (forall i, 0 <= i < 32 -> in_field (pin mod 4 * 4) 4 i = false ->
       Z.testbit (exticr_val (selector (pin / 4)) (syscfg m')) i
       = Z.testbit (exticr_val (selector (pin / 4)) (syscfg m)) i) /\
    (forall k, 0 <= k < 4 -> k <> pin / 4 ->
       exticr_val (selector k) (syscfg m') = exticr_val (selector k) (syscfg m)) /\
    gpio m' = gpio m /\ mem m' = mem m.
Proof.
  intros Hport Hpin.
  assert (0 <= pin / 4 < 4) as Hk
    by (split; [apply Z.div_pos | apply Z.div_lt_upper_bound]; lia).
  pose proof (Z.mod_pos_bound pin 4 ltac:(lia)) as Hoff.
  destruct (run_enable_int port pin m Hpin) as (m' & S & E).
  destruct (store_selector (pin / 4)
              (set_field (pin mod 4 * 4) 4 port
                 (exticr_val (selector (pin / 4)) (syscfg m))) m Hk)
    as (m2 & S2 & _ & V & _ & F & G & Hm).
  rewrite S in S2. injection S2 as <-.
  exists m'. split; [exact E|]. rewrite V.
  split; [apply field_set_field; lia|].
  split; [intros i Hi Hout; apply set_field_frame; lia || assumption|].
  split; [exact F|]. split; assumption.
Qed.

End Router.

(** Pin 16 on a machine after reset: the call fails, and its trace holds
    the clock enable. *)
Lemma enable_int_clock_counterexample :
  ~ (exists m' t,
       @stm32_gpio_enable_int sample_headers 0 16 machine_reset
       = Some (- @EINVAL sample_headers, m', t) /\
       existsb is_clock_on t = false).
Proof.
  intros (m' & t & E & Hc).
  rewrite run_enable_int_high in E by lia.
  injection E as _ <-. discriminate Hc.
Qed.

(** Port 16 on pin 0 of a machine after reset: bit 4 of the first
    selector register, in the field of pin 1, is set. *)
Lemma enable_int_frame_counterexample :
  ~ (exists m' t,
       @stm32_gpio_enable_int sample_headers 16 0 machine_reset = Some (0, m', t) /\
       field 4 4 (exticr1 (syscfg m'))
       = field 4 4 (exticr1 (syscfg machine_reset))).
Proof.
  intros (m' & t & E & Hf).
  destruct (@run_enable_int sample_headers 16 0 machine_reset ltac:(lia))
    as (m2 & S & E2).
  rewrite E2 in E. injection E as <- _.
  injection S as <-. vm_compute in Hf. discriminate Hf.
Qed.

Section Flags.

Context {Hdr : soc_headers}.

Lemma run_store_int (p v : Z) (m : machine) :
  store_int p v m = Some (tt, set_mem m (<[p := v]> (mem m)), []).
Proof. reflexivity. Qed.

(** C6: for every flags word and every non-null destination the call
    returns 0 and stores, in the destination and nowhere else, the
    enumerator of the pin function the table of section 4.2 gives for the
    direction and the pull of the flags: an output with pull [p] is a
    push-pull drive with pull [p], anything else is the bias [p]; a
    direction other than output counts as input and a pull other than up
    or down as none.  With a null destination the call returns [-EINVAL]
    and stores nothing. *)
Theorem flags_to_conf_table (flags pincfg : Z) (m : machine) :
  GPIO_PUD_PULL_UP <> GPIO_PUD_PULL_DOWN ->
  (exists d p, has_direction flags d /\ has_pull flags p) /\
  (forall d p,
     has_direction flags d -> has_pull flags p -> pincfg <> 0 ->
     stm32_gpio_flags_to_conf flags pincfg m =
       Some (0, set_mem m (<[pincfg := enum_val (flags_table d p)]> (mem m)), [])) /\
  (pincfg = 0 ->
     stm32_gpio_flags_to_conf flags pincfg m = Some (- EINVAL, m, [])).
Proof.
  intros Hne. split; [|split].
  - exists (if decide (Z.land flags GPIO_DIR_MASK = GPIO_DIR_OUT) then DirOut else DirIn).
    exists (if decide (Z.land flags GPIO_PUD_MASK = GPIO_PUD_PULL_UP) then PullUp
            else if decide (Z.land flags GPIO_PUD_MASK = GPIO_PUD_PULL_DOWN) then PullDown
            else NoPull).
    split.
    + destruct (decide _); assumption.
    + repeat destruct (decide _); cbn; auto.
  - intros d p Hd Hp Hnull.
    unfold stm32_gpio_flags_to_conf, truthy.
    replace (pincfg =? 0) with false by lia. cbn [negb].
    assert (forall a b : Z, a <> b -> (a =? b) = false) as Hf
      by (intros a b; apply Z.eqb_neq).
    destruct d, p; cbn [has_direction has_pull] in Hd, Hp;
      cbn [flags_table enum_val].
    all: try match type of Hp with
             | _ /\ _ => rewrite (Hf _ _ (proj1 Hp)), (Hf _ _ (proj2 Hp))
             end.
    all: try (rewrite Hp, ?Z.eqb_refl, ?(Hf _ _ (not_eq_sym Hne))).
    all: try (rewrite Hd, Z.eqb_refl).
    all: try rewrite (Hf _ _ Hd).
    all: (eapply run_eq;
          [run_step ltac:(apply run_store_int); apply run_ret | reflexivity..]).
  - intros ->. reflexivity.
Qed.

End Flags.

(** ** The theorems at sample inputs *)

Lemma enable_int_rejects_witness :
  15 < 16 /\
  exists t,
    @stm32_gpio_enable_int sample_headers 2 16 machine_busy
    = Some (- 22, machine_busy, t) /\
    existsb is_exticr_access t = false /\
    t = [EvClockOn 0x20000400 3 0x4000].
Proof.
  split; [lia|].
  apply (@enable_int_rejects sample_headers 2 16 machine_busy). lia.
Defined.

Lemma configure_pin5_push_pull_witness :
  @enum_distinct sample_headers /\ gpio_wf (gpio machine_busy) /\
  exists m',
    @stm32_gpio_configure sample_headers 5 7 0 machine_busy =
      Some (0, m',
            [EvRead MODE 0x400; EvWrite MODE 0x400;
             EvRead OSPEED 0x400; EvWrite OSPEED 0x800;
             EvRead PUPDR 0x400; EvWrite PUPDR 0]) /\
    field 10 2 (mode (gpio m')) = 1 /\
    otype (gpio m') = 0x20 /\
    field 10 2 (ospeed (gpio m')) = 2 /\
    field 10 2 (pupdr (gpio m')) = 0 /\
    (forall i, 0 <= i < 32 -> in_field 10 2 i = false ->
       Z.testbit (mode (gpio m')) i = Z.testbit 0x400 i /\
       Z.testbit (ospeed (gpio m')) i = Z.testbit 0x400 i /\
       Z.testbit (pupdr (gpio m')) i = Z.testbit 0x400 i) /\
    afr (gpio m') = [0x70; 0] /\
    idr (gpio m') = 0x8000 /\
    bsr (gpio m') = 0.
Proof.
  split; [apply (bool_decide_unpack _); vm_compute; exact I|].
  split; [reflexivity|].
  apply (@configure_pin5_push_pull sample_headers machine_busy).
  - apply (bool_decide_unpack _). vm_compute. exact I.
  - reflexivity.
Defined.

Lemma configure_sequence_witness :
  gpio_wf (gpio machine_busy) /\ 0 <= 9 <= 15 /\
  exists m',
    @stm32_gpio_configure sample_headers 9 13 7 machine_busy =
      Some (0, m',
            [EvRead (AFR 1) 0; EvWrite (AFR 1) 0x70;
             EvRead MODE 0x400; EvWrite MODE 0x80400;
             EvRead OTYPE 0x20; EvWrite OTYPE 0x220;
             EvRead OSPEED 0x400; EvWrite OSPEED 0x80400;
             EvRead PUPDR 0x400; EvWrite PUPDR 0x400]).
Proof.
  split; [reflexivity|]. split; [lia|].
  apply (@configure_sequence sample_headers 9 13 7 machine_busy); [reflexivity | lia].
Defined.

Lemma configure_frame_witness :
  gpio_wf (gpio machine_busy) /\ 0 <= 9 <= 15 /\ 0 <= 7 <= 15 /\
  exists m' t,
    @stm32_gpio_configure sample_headers 9 13 7 machine_busy = Some (0, m', t) /\
    (forall i, 0 <= i < 32 -> in_field 18 2 i = false ->
       Z.testbit (mode (gpio m')) i = Z.testbit 0x400 i /\
       Z.testbit (ospeed (gpio m')) i = Z.testbit 0x400 i /\
       Z.testbit (pupdr (gpio m')) i = Z.testbit 0x400 i) /\
    (forall i, 0 <= i < 32 -> i <> 9 ->
       Z.testbit (otype (gpio m')) i = Z.testbit 0x20 i) /\
    (forall (k : nat) i, 0 <= i < 32 ->
       (Z.of_nat k = 1 -> in_field 4 4 i = false) ->
       Z.testbit (afr (gpio m') !!! k) i = Z.testbit ([0x70; 0] !!! k) i) /\
    idr (gpio m') = 0x8000 /\
    bsr (gpio m') = 0 /\
    syscfg m' = syscfg machine_busy /\
    mem m' = ∅ /\
    (7 = 0 -> afr (gpio m') = [0x70; 0] /\ existsb is_afr_write t = false).
Proof.
  split; [reflexivity|]. split; [lia|]. split; [lia|].
  apply (@configure_frame sample_headers 9 13 7 machine_busy); [reflexivity | lia | lia].
Defined.

Lemma flags_to_conf_table_witness :
  @GPIO_PUD_PULL_UP sample_headers <> @GPIO_PUD_PULL_DOWN sample_headers /\
  (exists d p, @has_direction sample_headers 0x101 d /\ @has_pull sample_headers 0x101 p) /\
  (forall d p,
     @has_direction sample_headers 0x101 d -> @has_pull sample_headers 0x101 p ->
     0x20001000 <> 0 ->
     @stm32_gpio_flags_to_conf sample_headers 0x101 0x20001000 machine_reset =
       Some (0, set_mem machine_reset
                  (<[0x20001000 := @enum_val sample_headers (flags_table d p)]> ∅), [])) /\
  (0x20001000 = 0 ->
     @stm32_gpio_flags_to_conf sample_headers 0x101 0x20001000 machine_reset
     = Some (- 22, machine_reset, [])).
Proof.
  split; [vm_compute; discriminate|].
  apply (@flags_to_conf_table sample_headers 0x101 0x20001000 machine_reset).
  vm_compute. discriminate.
Defined.

Lemma set_get_pin_witness :
  0 <= 15 <= 15 /\
  (exists v m',
     stm32_gpio_set 15 0 machine_busy = Some (0, m', [EvWrite BSR v]) /\
     bsr (gpio m') = v /\
     forall i, 0 <= i -> Z.testbit v i = (i =? 31)) /\
  stm32_gpio_get 15 machine_busy
  = Some (1, machine_busy, [EvRead IDR 0x8000]).
Proof.
  split; [lia|].
  apply (set_get_pin 15 0 machine_busy). lia.
Defined.

Lemma enable_int_routes_witness :
  0 <= 2 <= 15 /\ 0 <= 7 <= 15 /\
  exists m',
    @stm32_gpio_enable_int sample_headers 2 7 machine_busy =
      Some (0, m',
            [EvClockOn 0x20000400 3 0x4000;
             EvRead EXTICR2 0x4321; EvWrite EXTICR2 0x0321;
             EvRead EXTICR2 0x0321; EvWrite EXTICR2 0x2321]) /\
    field 12 4 (exticr2 (syscfg m')) = 2 /\
    (forall i, 0 <= i < 32 -> in_field 12 4 i = false ->
       Z.testbit (exticr2 (syscfg m')) i = Z.testbit 0x4321 i) /\
    (forall k, 0 <= k < 4 -> k <> 1 ->
       exticr_val (selector k) (syscfg m')
       = exticr_val (selector k) (syscfg machine_busy)) /\
    gpio m' = gpio_busy /\ mem m' = ∅.
Proof.
  split; [lia|]. split; [lia|].
  apply (@enable_int_routes sample_headers 2 7 machine_busy); lia.
Defined.

Lemma configure_idempotent_witness :
  gpio_wf (gpio machine_busy) /\ 0 <= 9 <= 15 /\
  exists m1 t1 t2,
    @stm32_gpio_configure sample_headers 9 13 7 machine_busy = Some (0, m1, t1) /\
    @stm32_gpio_configure sample_headers 9 13 7 m1 = Some (0, m1, t2).
Proof.
  split; [reflexivity|]. split; [lia|].
  apply (@configure_idempotent sample_headers 9 13 7 machine_busy); [reflexivity | lia].
Defined.

(** * Further properties of the driver *)

(** ** Fields *)

Lemma testbit_code_outside (off w v i : Z) :
  0 <= w -> 0 <= v < 2 ^ w -> in_field off w i = false ->
  Z.testbit v (i - off) = false.
Proof.
  intros Hw Hv Hout. unfold in_field in Hout.
  destruct (Z.leb_spec off i).
  - apply (testbit_small w); lia.
  - apply Z.testbit_neg_r. lia.
Qed.

(** The field just set holds the low [w] bits of the code. *)
Lemma field_set_field_mod (off w v old : Z) :
  0 <= off -> 0 <= w -> off + w <= 32 ->
  field off w (set_field off w v old) = v mod 2 ^ w.
Proof.
  intros Hoff Hw Hin. rewrite <- Z.land_ones by assumption.
  apply Z.bits_inj'. intros j Hj.
  rewrite testbit_field, testbit_set_field, Z.land_spec, Z.testbit_ones by lia.
  replace (j + off - off) with j by lia.
  replace (0 <=? j) with true by lia.
  unfold in_field. destruct (Z.ltb_spec j w).
  - replace (off <=? j + off) with true by lia.
    replace (j + off <? off + w) with true by lia.
    replace (j + off <? 32) with true by lia.
    destruct (Z.testbit old (j + off)), (Z.testbit v j); reflexivity.
  - rewrite !andb_false_r. reflexivity.
Qed.

(** A later write of a field replaces an earlier one of a code that fits. *)
Lemma set_field_overwrite (off w v1 v2 old : Z) :
  0 <= off -> 0 <= w -> 0 <= v1 < 2 ^ w ->
  set_field off w v2 (set_field off w v1 old) = set_field off w v2 old.
Proof.
  intros Hoff Hw Hv1. apply Z.bits_inj'. intros n Hn.
  rewrite !testbit_set_field by assumption.
  destruct (in_field off w n) eqn:E.
  - cbn. rewrite !andb_false_r. reflexivity.
  - rewrite (testbit_code_outside off w v1 n) by assumption.
    destruct (Z.testbit old n), (n <? 32), (Z.testbit v2 (n - off)); reflexivity.
Qed.

(** Writes of two fields that do not overlap commute. *)
Lemma set_field_comm (off1 w1 v1 off2 w2 v2 old : Z) :
  0 <= off1 -> 0 <= w1 -> 0 <= off2 -> 0 <= w2 ->
  off1 + w1 <= off2 \/ off2 + w2 <= off1 ->
  0 <= v1 < 2 ^ w1 -> 0 <= v2 < 2 ^ w2 ->
  set_field off1 w1 v1 (set_field off2 w2 v2 old)
  = set_field off2 w2 v2 (set_field off1 w1 v1 old).
Proof.
  intros Ho1 Hw1 Ho2 Hw2 Hdis Hv1 Hv2. apply Z.bits_inj'. intros n Hn.
  rewrite !testbit_set_field by assumption.
  destruct (in_field off1 w1 n) eqn:E1, (in_field off2 w2 n) eqn:E2.
  - unfold in_field in E1, E2. lia.
  - rewrite (testbit_code_outside off2 w2 v2 n) by assumption.
    destruct (Z.testbit old n), (n <? 32), (Z.testbit v1 (n - off1)); reflexivity.
  - rewrite (testbit_code_outside off1 w1 v1 n) by assumption.
    destruct (Z.testbit old n), (n <? 32), (Z.testbit v2 (n - off2)); reflexivity.
  - rewrite (testbit_code_outside off1 w1 v1 n),
      (testbit_code_outside off2 w2 v2 n) by assumption.
    destruct (Z.testbit old n), (n <? 32); reflexivity.
Qed.

Lemma run_bind_undefined {A B} (c : M A) (k : A -> M B) m :
  c m = None -> bind c k m = None.
Proof. intros E. unfold bind. rewrite E. reflexivity. Qed.

Lemma run_bind_then_undefined {A B} (c : M A) (k : A -> M B) m a m1 t1 :
  c m = Some (a, m1, t1) -> k a m1 = None -> bind c k m = None.
Proof. intros Hc Hk. unfold bind. rewrite Hc. cbn. rewrite Hk. reflexivity. Qed.

Section ClassifierMore.

Context {Hdr : soc_headers}.

Lemma enum_or_other (func : Z) :
  (exists f, func = enum_val f) \/ (forall f, func <> enum_val f).
Proof.
  destruct (decide (Exists (fun f => func = enum_val f) all_pin_functions)) as [E|N].
  - left. apply Exists_exists in E. destruct E as (f & _ & ->). exists f. reflexivity.
  - right. intros f ->. apply N. apply Exists_exists. exists f. split; [|reflexivity].
    destruct f as [[]|[] []|[] []|]; unfold all_pin_functions; set_solver.
Qed.

(** The codes never leave their fields: whatever the input, and even if
    enumerators coincide, the mode is 0..3, the output type 0 or 1, the
    speed 0 or 2, and the pull 0, 1 or 2 (never the reserved 3). *)
Theorem classifier_codes_fit (func : Z) :
  0 <= __func_to_mode func <= 3 /\
  (__func_to_otype func = 0 \/ __func_to_otype func = 1) /\
  (__func_to_ospeed func = 0 \/ __func_to_ospeed func = 2) /\
  0 <= __func_to_pupd func <= 2.
Proof.
  unfold __func_to_mode, __func_to_otype, __func_to_ospeed, __func_to_pupd.
  repeat match goal with |- context [if ?b then _ else _] => destruct b end;
    repeat split; first [lia | left; reflexivity | right; reflexivity].
Qed.

(** The four codes of one input agree with each other: the speed is set
    exactly when the mode is output or alternate function, open drain
    comes only with such a mode, and analog and unknown inputs ask for no
    pull. *)
Theorem classifier_codes_consistent (func : Z) :
  enum_distinct ->
  (__func_to_ospeed func = 2 <->
     __func_to_mode func = 1 \/ __func_to_mode func = 2) /\
  (__func_to_otype func = 1 -> __func_to_ospeed func = 2) /\
  (__func_to_mode func = 3 -> __func_to_pupd func = 0) /\
  ((forall f, func <> enum_val f) ->
     __func_to_mode func = 0 /\ __func_to_pupd func = 0).
Proof.
  intros Hd. destruct (enum_or_other func) as [[f ->] | Hout].
  - destruct (classify_defined f Hd) as (-> & -> & -> & ->).
    split; [|split; [|split]];
      [destruct f as [[]|[] []|[] []|]; cbn; lia ..
      | intros Hout; destruct (Hout f eq_refl)].
  - destruct (classify_other func Hout) as (-> & -> & -> & ->).
    repeat split; intros; lia.
Qed.

End ClassifierMore.

Lemma classifier_codes_consistent_witness :
  @enum_distinct sample_headers /\
  (@__func_to_ospeed sample_headers 5 = 2 <->
     @__func_to_mode sample_headers 5 = 1 \/ @__func_to_mode sample_headers 5 = 2) /\
  (@__func_to_otype sample_headers 5 = 1 -> @__func_to_ospeed sample_headers 5 = 2) /\
  (@__func_to_mode sample_headers 5 = 3 -> @__func_to_pupd sample_headers 5 = 0) /\
  ((forall f, 5 <> @enum_val sample_headers f) ->
     @__func_to_mode sample_headers 5 = 0 /\ @__func_to_pupd sample_headers 5 = 0).
Proof.
  split; [apply (bool_decide_unpack _); vm_compute; exact I|].
  apply (@classifier_codes_consistent sample_headers 5).
  apply (bool_decide_unpack _). vm_compute. exact I.
Defined.

Section ProgrammerMore.

Context {Hdr : soc_headers}.

Lemma configure_undefined (pin conf altf : Z) (m : machine) :
  gpio_wf (gpio m) -> ~ 0 <= pin <= 15 ->
  stm32_gpio_configure pin conf altf m = None.
Proof.
  intros Hwf Hpin. unfold gpio_wf in Hwf.
  unfold stm32_gpio_configure, truthy.
  destruct (altf =? 0); cbn [negb].
  - eapply run_bind_then_undefined; [apply run_ret|]. cbv beta.
    eapply run_bind_then_undefined; [apply run_read; reflexivity|]. cbv beta.
    unfold mul_int. destruct (in_int (pin * 2)).
    + eapply run_bind_then_undefined; [apply run_ret|]. cbv beta.
      apply run_bind_undefined. unfold shl_int, shift_ok.
      replace ((0 <=? pin * 2) && (pin * 2 <? 32)) with false by lia.
      reflexivity.
    + apply run_bind_undefined. reflexivity.
  - do 2 apply run_bind_undefined.
    unfold read. cbn [load]. unfold afr_index.
    rewrite Z.shiftr_div_pow2 by lia. change (2 ^ 3) with 8.
    assert (pin / 8 < 0 \/ 2 <= pin / 8) as Hk
      by (Z.div_mod_to_equations; lia).
    replace ((0 <=? pin / 8) && (pin / 8 <? Z.of_nat (length (afr (gpio m)))))
      with false by lia.
    reflexivity.
Qed.

(** The pin is not checked: on a well-formed block the call has defined
    behaviour exactly for the pins 0..15.  Any other pin leads to a shift
    by a count outside 0..31 or to an index outside [afr[2]], not to an
    error return. *)
Theorem configure_defined_iff (pin conf altf : Z) (m : machine) :
  gpio_wf (gpio m) ->
  (stm32_gpio_configure pin conf altf m <> None <-> 0 <= pin <= 15).
Proof.
  intros Hwf. split.
  - intros Hdef. destruct (decide (0 <= pin <= 15)) as [|Hout]; [assumption|].
    exfalso. apply Hdef. apply configure_undefined; assumption.
  - intros Hpin. rewrite run_configure by assumption. discriminate.
Qed.

(** What the registers hold after the call, for a pin 0..15: the mode
    and pull fields of the pin hold the codes of the function; the
    output-type bit is 1 if the function is open drain and the speed
    field is 2 if the function has a speed; for a non-zero [altf] the
    nibble of the pin holds its low four bits. *)
Theorem configure_fields (pin conf altf : Z) (m : machine) :
  gpio_wf (gpio m) -> 0 <= pin <= 15 ->
  exists m' t,
    stm32_gpio_configure pin conf altf m = Some (0, m', t) /\
    field (pin * 2) 2 (mode (gpio m')) = __func_to_mode conf /\
    field (pin * 2) 2 (pupdr (gpio m')) = __func_to_pupd conf /\
    (__func_to_otype conf <> 0 -> field pin 1 (otype (gpio m')) = 1) /\
    (__func_to_ospeed conf <> 0 -> field (pin * 2) 2 (ospeed (gpio m')) = 2) /\
    (altf <> 0 ->
       field (pin mod 8 * 4) 4 (afr (gpio m') !!! Z.to_nat (pin / 8)) = altf mod 16).
Proof.
  intros Hwf Hpin.
  pose proof (func_to_mode_range conf) as Rm.
  pose proof (func_to_pupd_range conf) as Rp.
  destruct (classifier_codes_fit conf) as (_ & Ro & Rs & _).
  pose proof (Z.mod_pos_bound pin 8 ltac:(lia)) as Hoff.
  assert (0 <= pin / 8 < 2) as Hk
    by (split; [apply Z.div_pos | apply Z.div_lt_upper_bound]; lia).
  do 2 eexists. split; [apply run_configure; assumption|].
  unfold configure_gpio.
  cbn [set_gpio gpio mode otype ospeed pupdr afr].
  split; [apply field_set_field; lia|].
  split; [apply field_set_field; lia|].
  split; [|split].
  - intros Hne. destruct Ro as [Ro|Ro]; [contradiction|].
    rewrite Ro. cbn [Z.eqb]. apply field_set_field; lia.
  - intros Hne. destruct Rs as [Rs|Rs]; [contradiction|].
    rewrite Rs. cbn [Z.eqb]. apply field_set_field; lia.
  - intros Hne. replace (altf =? 0) with false by lia.
    rewrite list_lookup_total_insert_eq by (unfold gpio_wf in Hwf; lia).
    change 16 with (2 ^ 4). apply field_set_field_mod; lia.
Qed.

(** The call never clears an output-type bit: a bit that is set stays
    set, whatever the pin and function.  A function that is not open
    drain leaves the output-type register as it found it, and one without
    a speed leaves the speed register: a pin once made open drain stays
    open drain through later calls. *)
Theorem configure_keeps_otype (pin conf altf : Z) (m : machine) :
  gpio_wf (gpio m) -> 0 <= pin <= 15 ->
  exists m' t,
    stm32_gpio_configure pin conf altf m = Some (0, m', t) /\
    (forall i, 0 <= i < 32 ->
       Z.testbit (otype (gpio m)) i = true ->
       Z.testbit (otype (gpio m')) i = true) /\
    (__func_to_otype conf = 0 -> otype (gpio m') = otype (gpio m)) /\
    (__func_to_ospeed conf = 0 -> ospeed (gpio m') = ospeed (gpio m)).
Proof.
  intros Hwf Hpin.
  destruct (classifier_codes_fit conf) as (_ & Ro & _).
  do 2 eexists. split; [apply run_configure; assumption|].
  unfold configure_gpio.
  cbn [set_gpio gpio mode otype ospeed pupdr afr].
  split; [|split].
  - intros i Hi Hset. destruct Ro as [Ro|Ro]; rewrite Ro; cbn [Z.eqb]; [assumption|].
    rewrite testbit_set_field, Hset by lia.
    replace (i <? 32) with true by lia.
    change 1 with (2 ^ 0) at 2. rewrite Z.pow2_bits_eqb by lia.
    unfold in_field.
    destruct (Z.eq_dec i pin) as [->|Hne].
    + replace (0 =? pin - pin) with true by lia. apply orb_true_r.
    + replace ((pin <=? i) && (i <? pin + 1)) with false by lia. reflexivity.
  - intros ->. reflexivity.
  - intros ->. reflexivity.
Qed.

(** A function value that is no enumerator is not rejected: with no
    alternate function the call returns 0 after writing mode 00 and pull
    00 for the pin and nothing else, which makes the pin a floating
    input. *)
Theorem configure_unknown_function (pin conf : Z) (m : machine) :
  gpio_wf (gpio m) -> 0 <= pin <= 15 ->
  (forall f, conf <> enum_val f) ->
  exists m',
    stm32_gpio_configure pin conf 0 m =
      Some (0, m',
            rmw MODE (pin * 2) 2 0 (mode (gpio m)) ++
            rmw PUPDR (pin * 2) 2 0 (pupdr (gpio m))) /\
    field (pin * 2) 2 (mode (gpio m')) = 0 /\
    field (pin * 2) 2 (pupdr (gpio m')) = 0.
Proof.
  intros Hwf Hpin Hout.
  destruct (classify_other conf Hout) as (Em & Eo & Es & Ep).
  eexists. split.
  { rewrite run_configure by assumption.
    unfold configure_trace. rewrite Em, Eo, Es, Ep. cbn [Z.eqb app].
    reflexivity. }
  unfold configure_gpio. rewrite Em, Ep.
  cbn [set_gpio gpio mode pupdr].
  split; apply field_set_field; lia.
Qed.

End ProgrammerMore.

Lemma configure_defined_iff_witness :
  gpio_wf (gpio machine_busy) /\
  (@stm32_gpio_configure sample_headers 5 7 0 machine_busy <> None
   <-> 0 <= 5 <= 15).
Proof.
  split; [reflexivity|].
  apply (@configure_defined_iff sample_headers 5 7 0 machine_busy). reflexivity.
Defined.

Lemma configure_fields_witness :
  gpio_wf (gpio machine_busy) /\ 0 <= 9 <= 15 /\
  exists m' t,
    @stm32_gpio_configure sample_headers 9 13 0x17 machine_busy = Some (0, m', t) /\
    field 18 2 (mode (gpio m')) = 2 /\
    field 18 2 (pupdr (gpio m')) = 0 /\
    (1 <> 0 -> field 9 1 (otype (gpio m')) = 1) /\
    (2 <> 0 -> field 18 2 (ospeed (gpio m')) = 2) /\
    (0x17 <> 0 -> field 4 4 (afr (gpio m') !!! 1%nat) = 7).
Proof.
  split; [reflexivity|]. split; [lia|].
  apply (@configure_fields sample_headers 9 13 0x17 machine_busy); [reflexivity | lia].
Defined.

Lemma configure_keeps_otype_witness :
  gpio_wf (gpio machine_busy) /\ 0 <= 5 <= 15 /\
  exists m' t,
    @stm32_gpio_configure sample_headers 5 7 0 machine_busy = Some (0, m', t) /\
    (forall i, 0 <= i < 32 ->
       Z.testbit 0x20 i = true -> Z.testbit (otype (gpio m')) i = true) /\
    (0 = 0 -> otype (gpio m') = 0x20) /\
    (2 = 0 -> ospeed (gpio m') = 0x400).
Proof.
  split; [reflexivity|]. split; [lia|].
  apply (@configure_keeps_otype sample_headers 5 7 0 machine_busy); [reflexivity | lia].
Defined.

Lemma configure_unknown_function_witness :
  gpio_wf (gpio machine_busy) /\ 0 <= 5 <= 15 /\
  (forall f, 99 <> @enum_val sample_headers f) /\
  exists m',
    @stm32_gpio_configure sample_headers 5 99 0 machine_busy =
      Some (0, m',
            [EvRead MODE 0x400; EvWrite MODE 0;
             EvRead PUPDR 0x400; EvWrite PUPDR 0]) /\
    field 10 2 (mode (gpio m')) = 0 /\
    field 10 2 (pupdr (gpio m')) = 0.
Proof.
  split; [reflexivity|]. split; [lia|].
  split; [intros f; destruct f as [[]|[] []|[] []|]; vm_compute; discriminate|].
  apply (@configure_unknown_function sample_headers 5 99 machine_busy);
    [reflexivity | lia |].
  intros f; destruct f as [[]|[] []|[] []|]; vm_compute; discriminate.
Defined.

Section FlagsMore.

Context {Hdr : soc_headers}.

Lemma run_flags_to_conf (flags pincfg : Z) (d : direction) (p : pull) (m : machine) :
  GPIO_PUD_PULL_UP <> GPIO_PUD_PULL_DOWN ->
  has_direction flags d -> has_pull flags p -> pincfg <> 0 ->
  stm32_gpio_flags_to_conf flags pincfg m =
    Some (0, set_mem m (<[pincfg := enum_val (flags_table d p)]> (mem m)), []).
Proof.
  intros Hne Hd Hp Hnull.
  unfold stm32_gpio_flags_to_conf, truthy.
  replace (pincfg =? 0) with false by lia. cbn [negb].
  assert (forall a b : Z, a <> b -> (a =? b) = false) as Hf
    by (intros a b; apply Z.eqb_neq).
  destruct d, p; cbn [has_direction has_pull] in Hd, Hp;
    cbn [flags_table enum_val].
  all: try match type of Hp with
           | _ /\ _ => rewrite (Hf _ _ (proj1 Hp)), (Hf _ _ (proj2 Hp))
           end.
  all: try (rewrite Hp, ?Z.eqb_refl, ?(Hf _ _ (not_eq_sym Hne))).
  all: try (rewrite Hd, Z.eqb_refl).
  all: try rewrite (Hf _ _ Hd).
  all: (eapply run_eq;
        [run_step ltac:(apply run_store_int); apply run_ret | reflexivity..]).
Qed.

(** What the translated value means to the classifiers: the value stored
    for an output request classifies as output mode, push-pull, fast,
    with the pull asked for; the one stored for any other request as
    input mode, no speed, with the pull asked for.  The call changes the
    destination cell only. *)
Theorem flags_to_conf_codes (flags pincfg : Z) (d : direction) (p : pull) (m : machine) :
  enum_distinct -> GPIO_PUD_PULL_UP <> GPIO_PUD_PULL_DOWN ->
  has_direction flags d -> has_pull flags p -> pincfg <> 0 ->
  exists m' c,
    stm32_gpio_flags_to_conf flags pincfg m = Some (0, m', []) /\
    mem m' !! pincfg = Some c /\
    (forall q, q <> pincfg -> mem m' !! q = mem m !! q) /\
    gpio m' = gpio m /\ syscfg m' = syscfg m /\
    __func_to_mode c = (match d with DirOut => 1 | DirIn => 0 end) /\
    __func_to_otype c = 0 /\
    __func_to_ospeed c = (match d with DirOut => 2 | DirIn => 0 end) /\
    __func_to_pupd c = pull_code p.
Proof.
  intros Hdist Hne Hd Hp Hnull.
  do 2 eexists. split; [apply run_flags_to_conf; eassumption|].
  cbn [mem set_mem gpio syscfg].
  split; [apply lookup_insert_eq|].
  split; [intros q Hq; apply lookup_insert_ne; congruence|].
  split; [reflexivity|]. split; [reflexivity|].
  destruct (classify_defined (flags_table d p) Hdist) as (-> & -> & -> & ->).
  destruct d, p; repeat split; reflexivity.
Qed.

(** Translating a flags word and configuring a pin with the result and
    no alternate function: the mode field of the pin is 01 for an output
    request and 00 otherwise, its pull field holds the pull asked for,
    and the output-type register and the alternate-function words are as
    before. *)
Theorem flags_then_configure (flags pincfg pin : Z) (d : direction) (p : pull)
    (m : machine) :
  enum_distinct -> GPIO_PUD_PULL_UP <> GPIO_PUD_PULL_DOWN ->
  has_direction flags d -> has_pull flags p -> pincfg <> 0 ->
  gpio_wf (gpio m) -> 0 <= pin <= 15 ->
  exists m1 c m2 t,
    stm32_gpio_flags_to_conf flags pincfg m = Some (0, m1, []) /\
    mem m1 !! pincfg = Some c /\
    stm32_gpio_configure pin c 0 m1 = Some (0, m2, t) /\
    field (pin * 2) 2 (mode (gpio m2)) = (match d with DirOut => 1 | DirIn => 0 end) /\
    field (pin * 2) 2 (pupdr (gpio m2)) = pull_code p /\
    otype (gpio m2) = otype (gpio m) /\
    afr (gpio m2) = afr (gpio m).
Proof.
  intros Hdist Hne Hd Hp Hnull Hwf Hpin.
  destruct (classify_defined (flags_table d p) Hdist) as (Em & Eo & Es & Ep).
  exists (set_mem m (<[pincfg := enum_val (flags_table d p)]> (mem m))).
  exists (enum_val (flags_table d p)).
  do 2 eexists. split; [apply run_flags_to_conf; assumption|].
  split; [apply lookup_insert_eq|].
  split; [apply run_configure; assumption|].
  unfold configure_gpio. rewrite Em, Eo, Ep.
  cbn [set_gpio set_mem gpio mode otype pupdr afr Z.eqb].
  split; [|split; [|split]].
  - rewrite field_set_field by (destruct d; cbn; lia). destruct d; reflexivity.
  - rewrite field_set_field by (destruct d, p; cbn; lia). destruct d; reflexivity.
  - destruct d; reflexivity.
  - reflexivity.
Qed.

End FlagsMore.

Lemma flags_to_conf_codes_witness :
  @enum_distinct sample_headers /\
  @GPIO_PUD_PULL_UP sample_headers <> @GPIO_PUD_PULL_DOWN sample_headers /\
  @has_direction sample_headers 0x201 DirOut /\
  @has_pull sample_headers 0x201 PullDown /\
  0x20001000 <> 0 /\
  exists m' c,
    @stm32_gpio_flags_to_conf sample_headers 0x201 0x20001000 machine_busy
    = Some (0, m', []) /\
    mem m' !! 0x20001000 = Some c /\
    (forall q, q <> 0x20001000 -> mem m' !! q = mem machine_busy !! q) /\
    gpio m' = gpio machine_busy /\ syscfg m' = syscfg machine_busy /\
    @__func_to_mode sample_headers c = 1 /\
    @__func_to_otype sample_headers c = 0 /\
    @__func_to_ospeed sample_headers c = 2 /\
    @__func_to_pupd sample_headers c = 2.
Proof.
  split; [apply (bool_decide_unpack _); vm_compute; exact I|].
  split; [vm_compute; discriminate|].
  split; [reflexivity|]. split; [reflexivity|]. split; [lia|].
  apply (@flags_to_conf_codes sample_headers 0x201 0x20001000 DirOut PullDown
           machine_busy).
  - apply (bool_decide_unpack _). vm_compute. exact I.
  - vm_compute. discriminate.
  - reflexivity.
  - reflexivity.
  - lia.
Defined.

Lemma flags_then_configure_witness :
  @enum_distinct sample_headers /\
  @GPIO_PUD_PULL_UP sample_headers <> @GPIO_PUD_PULL_DOWN sample_headers /\
  @has_direction sample_headers 0x100 DirIn /\
  @has_pull sample_headers 0x100 PullUp /\
  0x20001000 <> 0 /\ gpio_wf (gpio machine_busy) /\ 0 <= 5 <= 15 /\
  exists m1 c m2 t,
    @stm32_gpio_flags_to_conf sample_headers 0x100 0x20001000 machine_busy
    = Some (0, m1, []) /\
    mem m1 !! 0x20001000 = Some c /\
    @stm32_gpio_configure sample_headers 5 c 0 m1 = Some (0, m2, t) /\
    field 10 2 (mode (gpio m2)) = 0 /\
    field 10 2 (pupdr (gpio m2)) = 1 /\
    otype (gpio m2) = 0x20 /\
    afr (gpio m2) = [0x70; 0].
Proof.
  split; [apply (bool_decide_unpack _); vm_compute; exact I|].
  split; [vm_compute; discriminate|].
  split; [vm_compute; discriminate|]. split; [reflexivity|]. split; [lia|].
  split; [reflexivity|]. split; [lia|].
  apply (@flags_then_configure sample_headers 0x100 0x20001000 5 DirIn PullUp
           machine_busy).
  - apply (bool_decide_unpack _). vm_compute. exact I.
  - vm_compute. discriminate.
  - vm_compute. discriminate.
  - reflexivity.
  - lia.
  - reflexivity.
  - lia.
Defined.

Section ProgrammerCommute.

Context {Hdr : soc_headers}.

Lemma configure_gpio_comm (p1 c1 a1 p2 c2 a2 : Z) (g : stm32f4x_gpio) :
  gpio_wf g -> 0 <= p1 <= 15 -> 0 <= p2 <= 15 -> p1 <> p2 ->
  0 <= a1 <= 15 -> 0 <= a2 <= 15 ->
  configure_gpio p1 c1 a1 (configure_gpio p2 c2 a2 g)
  = configure_gpio p2 c2 a2 (configure_gpio p1 c1 a1 g).
Proof.
  intros Hwf Hp1 Hp2 Hne Ha1 Ha2. unfold gpio_wf in Hwf.
  pose proof (func_to_mode_range c1). pose proof (func_to_mode_range c2).
  pose proof (func_to_otype_range c1). pose proof (func_to_otype_range c2).
  pose proof (func_to_ospeed_range c1). pose proof (func_to_ospeed_range c2).
  pose proof (func_to_pupd_range c1). pose proof (func_to_pupd_range c2).
  unfold configure_gpio. cbn [mode otype ospeed pupdr idr bsr afr].
  f_equal.
  - apply set_field_comm; lia.
  - destruct (__func_to_otype c1 =? 0), (__func_to_otype c2 =? 0);
      try reflexivity.
    apply set_field_comm; lia.
  - destruct (__func_to_ospeed c1 =? 0), (__func_to_ospeed c2 =? 0);
      try reflexivity.
    apply set_field_comm; lia.
  - apply set_field_comm; lia.
  - destruct (a1 =? 0), (a2 =? 0); try reflexivity.
    assert (0 <= p1 / 8 < 2 /\ 0 <= p2 / 8 < 2) as [Hk1 Hk2]
      by (Z.div_mod_to_equations; lia).
    pose proof (Z.mod_pos_bound p1 8 ltac:(lia)).
    pose proof (Z.mod_pos_bound p2 8 ltac:(lia)).
    destruct (Z.eq_dec (p1 / 8) (p2 / 8)) as [E|N].
    + rewrite E.
      rewrite !list_lookup_total_insert_eq by lia.
      rewrite !list_insert_insert_eq. f_equal.
      apply set_field_comm; try lia.
      assert (p1 mod 8 <> p2 mod 8) by (Z.div_mod_to_equations; lia).
      lia.
    + rewrite !list_lookup_total_insert_ne by lia.
      apply list_insert_insert_ne. lia.
Qed.

(** Configuring two different pins, each with an alternate-function
    code of at most four bits, leaves the same machine in either order. *)
Theorem configure_commutes (p1 c1 a1 p2 c2 a2 : Z) (m : machine) :
  gpio_wf (gpio m) -> 0 <= p1 <= 15 -> 0 <= p2 <= 15 -> p1 <> p2 ->
  0 <= a1 <= 15 -> 0 <= a2 <= 15 ->
  exists m1 m2 m12 t1 t2 t12 t21,
    stm32_gpio_configure p1 c1 a1 m = Some (0, m1, t1) /\
    stm32_gpio_configure p2 c2 a2 m1 = Some (0, m12, t12) /\
    stm32_gpio_configure p2 c2 a2 m = Some (0, m2, t2) /\
    stm32_gpio_configure p1 c1 a1 m2 = Some (0, m12, t21).
Proof.
  intros Hwf Hp1 Hp2 Hne Ha1 Ha2.
  exists (set_gpio m (configure_gpio p1 c1 a1 (gpio m))).
  exists (set_gpio m (configure_gpio p2 c2 a2 (gpio m))).
  exists (set_gpio m (configure_gpio p2 c2 a2 (configure_gpio p1 c1 a1 (gpio m)))).
  do 4 eexists.
  split; [apply run_configure; assumption|].
  split; [rewrite run_configure
            by (first [assumption | apply configure_gpio_wf; assumption]);
          reflexivity|].
  split; [apply run_configure; assumption|].
  rewrite run_configure
    by (first [assumption | apply configure_gpio_wf; assumption]).
  cbn [gpio set_gpio]. rewrite configure_gpio_comm by assumption.
  reflexivity.
Qed.

End ProgrammerCommute.

Lemma configure_commutes_witness :
  gpio_wf (gpio machine_busy) /\ 0 <= 9 <= 15 /\ 0 <= 10 <= 15 /\ 9 <> 10 /\
  0 <= 7 <= 15 /\ 0 <= 0 <= 15 /\
  exists m1 m2 m12 t1 t2 t12 t21,
    @stm32_gpio_configure sample_headers 9 13 7 machine_busy = Some (0, m1, t1) /\
    @stm32_gpio_configure sample_headers 10 8 0 m1 = Some (0, m12, t12) /\
    @stm32_gpio_configure sample_headers 10 8 0 machine_busy = Some (0, m2, t2) /\
    @stm32_gpio_configure sample_headers 9 13 7 m2 = Some (0, m12, t21).
Proof.
  split; [reflexivity|]. do 5 (split; [lia|]).
  apply (@configure_commutes sample_headers 9 13 7 10 8 0 machine_busy);
    [reflexivity | lia ..].
Defined.

Section RouterMore.

Context {Hdr : soc_headers}.

Lemma run_enable_int_route (port pin : Z) (m : machine) :
  0 <= pin <= 15 ->
  exists t,
    stm32_gpio_enable_int port pin m
    = Some (0, set_syscfg m (route port pin (syscfg m)), t).
Proof.
  intros Hpin.
  assert (0 <= pin / 4 < 4) as Hk by (Z.div_mod_to_equations; lia).
  destruct (run_enable_int port pin m Hpin) as (m' & S & E).
  eexists. rewrite E. do 3 f_equal.
  unfold route. revert S.
  generalize (set_field (pin mod 4 * 4) 4 port
                (exticr_val (selector (pin / 4)) (syscfg m))).
  intros v S.
  destruct (selector_cases _ Hk) as [K | [K | [K | K]]]; rewrite K in S |- *;
    cbn in S |- *; injection S as <-; reflexivity.
Qed.

Ltac route_cases p :=
  let K := fresh "K" in
  let Hk := fresh "Hk" in
  assert (0 <= p / 4 < 4) as Hk by (Z.div_mod_to_equations; lia);
  destruct (selector_cases _ Hk) as [K | [K | [K | K]]]; rewrite K;
  cbn [selector Z.eqb Pos.eqb store_syscfg exticr_val
       exticr1 exticr2 exticr3 exticr4].

Lemma route_idem (port pin : Z) (s : stm32f4x_syscfg) :
  0 <= pin <= 15 ->
  route port pin (route port pin s) = route port pin s.
Proof.
  intros Hpin. unfold route.
  generalize (pin mod 4 * 4). intros o.
  route_cases pin; f_equal; apply set_field_idem.
Qed.

Lemma route_overwrite (port1 port2 pin : Z) (s : stm32f4x_syscfg) :
  0 <= pin <= 15 -> 0 <= port1 <= 15 ->
  route port2 pin (route port1 pin s) = route port2 pin s.
Proof.
  intros Hpin Hport. unfold route.
  pose proof (Z.mod_pos_bound pin 4 ltac:(lia)) as Ho.
  assert (0 <= pin mod 4 * 4) as Ho' by lia. revert Ho'. clear Ho.
  generalize (pin mod 4 * 4). intros o Ho.
  route_cases pin; f_equal; apply set_field_overwrite; lia.
Qed.

Lemma route_comm (port1 pin1 port2 pin2 : Z) (s : stm32f4x_syscfg) :
  0 <= pin1 <= 15 -> 0 <= pin2 <= 15 -> pin1 <> pin2 ->
  0 <= port1 <= 15 -> 0 <= port2 <= 15 ->
  route port1 pin1 (route port2 pin2 s) = route port2 pin2 (route port1 pin1 s).
Proof.
  intros Hp1 Hp2 Hne Ha1 Ha2. unfold route.
  assert (0 <= pin1 mod 4 * 4 /\ 0 <= pin2 mod 4 * 4 /\
          (pin1 / 4 = pin2 / 4 ->
           pin1 mod 4 * 4 + 4 <= pin2 mod 4 * 4 \/
           pin2 mod 4 * 4 + 4 <= pin1 mod 4 * 4)) as Ho
    by (Z.div_mod_to_equations; lia).
  revert Ho.
  generalize (pin1 mod 4 * 4) (pin2 mod 4 * 4). intros o1 o2 (Ho1 & Ho2 & Hdis).
  revert Hdis.
  route_cases pin1; route_cases pin2; intros Hdis; f_equal;
    first [reflexivity | apply set_field_comm; lia].
Qed.

(** Routing the same port to the same line twice is routing it once:
    the second call leaves the machine the first one left, for every
    port value. *)
Theorem enable_int_idempotent (port pin : Z) (m : machine) :
  0 <= pin <= 15 ->
  exists m1 t1 t2,
    stm32_gpio_enable_int port pin m = Some (0, m1, t1) /\
    stm32_gpio_enable_int port pin m1 = Some (0, m1, t2).
Proof.
  intros Hpin.
  destruct (run_enable_int_route port pin m Hpin) as (t1 & E1).
  destruct (run_enable_int_route port pin
              (set_syscfg m (route port pin (syscfg m))) Hpin) as (t2 & E2).
  do 3 eexists. split; [exact E1|]. rewrite E2.
  cbn [syscfg set_syscfg]. rewrite route_idem by assumption. reflexivity.
Qed.

(** The last port routed to a line wins: after a port 0..15, routing
    another port to the same line leaves the machine that routing the
    second port alone leaves. *)
Theorem enable_int_overwrites (port1 port2 pin : Z) (m : machine) :
  0 <= pin <= 15 -> 0 <= port1 <= 15 ->
  exists m1 m2 t1 t12 t2,
    stm32_gpio_enable_int port1 pin m = Some (0, m1, t1) /\
    stm32_gpio_enable_int port2 pin m1 = Some (0, m2, t12) /\
    stm32_gpio_enable_int port2 pin m = Some (0, m2, t2).
Proof.
  intros Hpin Hport.
  destruct (run_enable_int_route port1 pin m Hpin) as (t1 & E1).
  destruct (run_enable_int_route port2 pin m Hpin) as (t2 & E2).
  destruct (run_enable_int_route port2 pin
              (set_syscfg m (route port1 pin (syscfg m))) Hpin) as (t12 & E12).
  do 5 eexists. split; [exact E1|]. split; [|exact E2].
  rewrite E12. cbn [syscfg set_syscfg].
  rewrite route_overwrite by assumption. reflexivity.
Qed.

(** Routing two different lines, each to a port 0..15, leaves the same
    machine in either order. *)
Theorem enable_int_commutes (port1 pin1 port2 pin2 : Z) (m : machine) :
  0 <= pin1 <= 15 -> 0 <= pin2 <= 15 -> pin1 <> pin2 ->
  0 <= port1 <= 15 -> 0 <= port2 <= 15 ->
  exists m1 m2 m12 t1 t2 t12 t21,
    stm32_gpio_enable_int port1 pin1 m = Some (0, m1, t1) /\
    stm32_gpio_enable_int port2 pin2 m1 = Some (0, m12, t12) /\
    stm32_gpio_enable_int port2 pin2 m = Some (0, m2, t2) /\
    stm32_gpio_enable_int port1 pin1 m2 = Some (0, m12, t21).
Proof.
  intros Hp1 Hp2 Hne Ha1 Ha2.
  destruct (run_enable_int_route port1 pin1 m Hp1) as (t1 & E1).
  destruct (run_enable_int_route port2 pin2 m Hp2) as (t2 & E2).
  destruct (run_enable_int_route port2 pin2
              (set_syscfg m (route port1 pin1 (syscfg m))) Hp2) as (t12 & E12).
  destruct (run_enable_int_route port1 pin1
              (set_syscfg m (route port2 pin2 (syscfg m))) Hp1) as (t21 & E21).
  do 7 eexists. split; [exact E1|]. split; [exact E12|]. split; [exact E2|].
  rewrite E21. cbn [syscfg set_syscfg].
  rewrite route_comm by assumption. reflexivity.
Qed.

(** Only the upper bound of the pin is checked.  A negative pin is not
    rejected: when it is a multiple of 4 the call does what it does for
    pin 0, and otherwise it shifts by a negative count, which is
    undefined. *)
Theorem enable_int_negative_pin (port pin : Z) (m : machine) :
  pin < 0 ->
  (Z.rem pin 4 = 0 ->
     stm32_gpio_enable_int port pin m = stm32_gpio_enable_int port 0 m) /\
  (Z.rem pin 4 <> 0 -> stm32_gpio_enable_int port pin m = None).
Proof.
  intros Hneg. unfold stm32_gpio_enable_int.
  replace (pin <=? 3) with true by lia. cbn [Z.leb Z.compare].
  split.
  - intros ->. reflexivity.
  - intros Hrem.
    assert (4 * Z.rem pin 4 < 0) as Hs.
    { pose proof (Z.rem_nonpos pin 4 ltac:(lia) ltac:(lia)). lia. }
    eapply run_bind_then_undefined; [reflexivity|]. cbv beta.
    eapply run_bind_then_undefined; [apply run_read; reflexivity|]. cbv beta.
    apply run_bind_undefined. unfold shl_int, shift_ok.
    replace ((0 <=? 4 * Z.rem pin 4) && (4 * Z.rem pin 4 <? 32)) with false by lia.
    reflexivity.
Qed.

End RouterMore.

(** Input read-back has no mask on the pin: the call is defined exactly
    for the counts 0..31, where it reads the input-data register once,
    leaves the machine as it was and returns bit [pin] of the word read
    as 0 or 1, also for the bits 16..31 that belong to no pin. *)
Theorem get_defined_iff (pin : Z) (m : machine) :
  (stm32_gpio_get pin m <> None <-> 0 <= pin <= 31) /\
  (0 <= pin <= 31 ->
     stm32_gpio_get pin m =
       Some (Z.b2z (Z.testbit (idr (gpio m)) pin), m, [EvRead IDR (idr (gpio m))])).
Proof.
  split; [split|].
  - intros Hdef. destruct (decide (0 <= pin <= 31)) as [|Hout]; [assumption|].
    exfalso. apply Hdef. unfold stm32_gpio_get.
    eapply run_bind_then_undefined; [apply run_read; reflexivity|]. cbv beta.
    apply run_bind_undefined. unfold shr_u32, shift_ok.
    replace ((0 <=? pin) && (pin <? 32)) with false by lia. reflexivity.
  - intros Hpin. rewrite run_get by lia. discriminate.
  - intros Hpin. apply run_get. lia.
Qed.

Lemma enable_int_idempotent_witness :
  0 <= 7 <= 15 /\
  exists m1 t1 t2,
    @stm32_gpio_enable_int sample_headers 0x12 7 machine_busy = Some (0, m1, t1) /\
    @stm32_gpio_enable_int sample_headers 0x12 7 m1 = Some (0, m1, t2).
Proof.
  split; [lia|].
  apply (@enable_int_idempotent sample_headers 0x12 7 machine_busy). lia.
Defined.

Lemma enable_int_overwrites_witness :
  0 <= 7 <= 15 /\ 0 <= 5 <= 15 /\
  exists m1 m2 t1 t12 t2,
    @stm32_gpio_enable_int sample_headers 5 7 machine_busy = Some (0, m1, t1) /\
    @stm32_gpio_enable_int sample_headers 2 7 m1 = Some (0, m2, t12) /\
    @stm32_gpio_enable_int sample_headers 2 7 machine_busy = Some (0, m2, t2).
Proof.
  split; [lia|]. split; [lia|].
  apply (@enable_int_overwrites sample_headers 5 2 7 machine_busy); lia.
Defined.

Lemma enable_int_commutes_witness :
  0 <= 5 <= 15 /\ 0 <= 7 <= 15 /\ 5 <> 7 /\ 0 <= 1 <= 15 /\ 0 <= 2 <= 15 /\
  exists m1 m2 m12 t1 t2 t12 t21,
    @stm32_gpio_enable_int sample_headers 1 5 machine_busy = Some (0, m1, t1) /\
    @stm32_gpio_enable_int sample_headers 2 7 m1 = Some (0, m12, t12) /\
    @stm32_gpio_enable_int sample_headers 2 7 machine_busy = Some (0, m2, t2) /\
    @stm32_gpio_enable_int sample_headers 1 5 m2 = Some (0, m12, t21).
Proof.
  do 5 (split; [lia|]).
  apply (@enable_int_commutes sample_headers 1 5 2 7 machine_busy); lia.
Defined.

Lemma enable_int_negative_pin_witness :
  -4 < 0 /\
  (Z.rem (-4) 4 = 0 ->
     @stm32_gpio_enable_int sample_headers 2 (-4) machine_busy
     = @stm32_gpio_enable_int sample_headers 2 0 machine_busy) /\
  (Z.rem (-4) 4 <> 0 ->
     @stm32_gpio_enable_int sample_headers 2 (-4) machine_busy = None).
Proof.
  split; [lia|].
  apply (@enable_int_negative_pin sample_headers 2 (-4) machine_busy). lia.
Defined.

Section RouterPort.

Context {Hdr : soc_headers}.

(** The port is not masked: for a pin 0..15 and any port value the call
    succeeds, and the field of the line then holds the low four bits of
    the port. *)
Theorem enable_int_field_any_port (port pin : Z) (m : machine) :
  0 <= pin <= 15 ->
  exists m' t,
    stm32_gpio_enable_int port pin m = Some (0, m', t) /\
    field (pin mod 4 * 4) 4 (exticr_val (selector (pin / 4)) (syscfg m'))
    = port mod 16.
Proof.
  intros Hpin.
  assert (0 <= pin / 4 < 4) as Hk by (Z.div_mod_to_equations; lia).
  pose proof (Z.mod_pos_bound pin 4 ltac:(lia)) as Hoff.
  destruct (run_enable_int port pin m Hpin) as (m' & S & E).
  destruct (store_selector (pin / 4)
              (set_field (pin mod 4 * 4) 4 port
                 (exticr_val (selector (pin / 4)) (syscfg m))) m Hk)
    as (m2 & S2 & _ & V & _).
  rewrite S in S2. injection S2 as <-.
  do 2 eexists. split; [exact E|]. rewrite V.
  change 16 with (2 ^ 4). apply field_set_field_mod; lia.
Qed.

End RouterPort.

Lemma enable_int_field_any_port_witness :
  0 <= 7 <= 15 /\
  exists m' t,
    @stm32_gpio_enable_int sample_headers 0x12 7 machine_busy = Some (0, m', t) /\
    field 12 4 (exticr2 (syscfg m')) = 2.
Proof.
  split; [lia|].
  apply (@enable_int_field_any_port sample_headers 0x12 7 machine_busy). lia.
Defined.
